(** * Certificate analysis of the Amplify agent: [amplify/agent/util/ssl.py]

    A shallow embedding of the module (Python 2: byte strings, [map] returns a
    list) and the properties of its orchestrator [ssl_analysis] and of its
    extractors.

    - Python [str] is [string] (a sequence of bytes), a [dict] with string
      keys is a [gmap string _], a list is a [list].
    - A Python call either returns or raises: [res].  Code that runs the
      [openssl] tool or writes to the agent's log threads a trace of events:
      the monad [M].
    - The collaborators outside the module ([open], [os.path.getmtime],
      [subp.call], [strptime]/[strftime]) are the fields of a [World]. *)

From Stdlib Require Import ZArith Ascii String List Lia.
From stdpp Require Import base option list gmap strings.

Import ListNotations.
Set Warnings "-clear-no-such-hyp".
Local Open Scope string_scope.
Local Open Scope Z_scope.

(** ** Exceptions and results *)

(** The exception classes the module can meet; all of them are subclasses of
    Python's [Exception]. *)
Inductive exn : Type :=
| IOError
| OSError
| ValueError
| TypeError
| KeyError
| IndexError
| AttributeError
| OtherError (name : string).

Inductive res (A : Type) : Type :=
| Ok (a : A)
| Raise (e : exn).

Arguments Ok {A} a.
Arguments Raise {A} e.

Module Res.
Definition bind {A B : Type} (m : res A) (k : A -> res B) : res B :=
  match m with
  | Ok a => k a
  | Raise e => Raise e
  end.

(** A [for] loop threading an accumulator, left to right; the first
    exception leaves the loop. *)
Fixpoint foldM {A B : Type} (f : B -> A -> res B) (l : list A) (acc : B) : res B :=
  match l with
  | [] => Ok acc
  | x :: l' => bind (f acc x) (foldM f l')
  end.

Fixpoint mapM {A B : Type} (f : A -> res B) (l : list A) : res (list B) :=
  match l with
  | [] => Ok []
  | x :: l' => bind (f x) (fun y => bind (mapM f l') (fun ys => Ok (y :: ys)))
  end.
End Res.

#[global] Instance res_ret : MRet res := @Ok.
#[global] Instance res_bind : MBind res := fun A B k m => Res.bind m k.

(** ** Strings *)

Module Str.
(** [s.startswith(p)] *)
Fixpoint startswith (p s : string) : bool :=
  match p with
  | EmptyString => true
  | String a p' =>
      match s with
      | EmptyString => false
      | String c s' => if Ascii.eqb a c then startswith p' s' else false
      end
  end.

(** [s.split(sep)] for a non-empty [sep]: the pieces between the leftmost
    non-overlapping occurrences of [sep].  [skip] counts the bytes of an
    occurrence of [sep] still to be passed over. *)
Fixpoint split_go (sep : string) (skip : nat) (s : string) : list string :=
  match s with
  | EmptyString => [EmptyString]
  | String c s' =>
      match skip with
      | S k => split_go sep k s'
      | O =>
          if startswith sep s
          then EmptyString :: split_go sep (Nat.pred (String.length sep)) s'
          else match split_go sep O s' with
               | piece :: pieces => String c piece :: pieces
               | [] => [String c EmptyString]
               end
      end
  end.

Definition split (sep s : string) : list string := split_go sep O s.

(** Number of occurrences of the byte [a] in [s]. *)
Fixpoint count (a : ascii) (s : string) : nat :=
  match s with
  | EmptyString => O
  | String c s' => if Ascii.eqb a c then S (count a s') else count a s'
  end.

(** [sub in s] *)
Fixpoint contains (sub s : string) : bool :=
  startswith sub s ||
  match s with
  | EmptyString => false
  | String _ s' => contains sub s'
  end.

(** [bool(s)]: a string is true when it is not empty. *)
Definition truthy (s : string) : bool :=
  match s with
  | EmptyString => false
  | String _ _ => true
  end.

Definition is_digit (c : ascii) : bool :=
  (48 <=? N_of_ascii c)%N && (N_of_ascii c <=? 57)%N.

(** The white space that [str.strip()] and [int()] pass over. *)
Definition is_space (c : ascii) : bool :=
  (N_of_ascii c =? 32)%N || ((9 <=? N_of_ascii c)%N && (N_of_ascii c <=? 13)%N).

Fixpoint lstrip (s : string) : string :=
  match s with
  | EmptyString => EmptyString
  | String c s' => if is_space c then lstrip s' else s
  end.

Fixpoint rstrip (s : string) : string :=
  match s with
  | EmptyString => EmptyString
  | String c s' =>
      match rstrip s' with
      | EmptyString => if is_space c then EmptyString else String c EmptyString
      | rest => String c rest
      end
  end.

Fixpoint digits_value (acc : Z) (s : string) : option Z :=
  match s with
  | EmptyString => Some acc
  | String c s' =>
      if is_digit c
      then digits_value (10 * acc + (Z.of_N (N_of_ascii c) - 48)) s'
      else None
  end.

(** A non-empty run of decimal digits. *)
Definition unsigned (s : string) : option Z :=
  match s with
  | EmptyString => None
  | String _ _ => digits_value 0 s
  end.

(** [int(s)]: decimal digits, with an optional sign, between optional white
    space; anything else is a [ValueError]. *)
Definition to_int (s : string) : res Z :=
  let number :=
    match rstrip (lstrip s) with
    | String "-" digits => Z.opp <$> unsigned digits
    | String "+" digits => unsigned digits
    | digits => unsigned digits
    end in
  match number with
  | Some z => Ok z
  | None => Raise ValueError
  end.
End Str.

(** ** Regular expressions

    The fragment of Python's [re] that the module's patterns use: literal
    text, greedy [X*] and [X+] over a one-character [X], named groups and
    concatenation.  Matching is by backtracking: the first way to match, in
    the order Python tries them (a greedy repetition takes as many characters
    as it can, then gives them back one at a time). *)

Module Re.
Inductive regex : Type :=
| Lit (text : string)
| Star (cls : ascii -> bool)
| Plus (cls : ascii -> bool)
| Named (name : string) (r : regex)
| Cat (r1 r2 : regex).

(** Character classes of a byte pattern compiled without flags. *)
Definition between (lo hi : N) (c : ascii) : bool :=
  (lo <=? N_of_ascii c)%N && (N_of_ascii c <=? hi)%N.
Definition chr (a c : ascii) : bool := Ascii.eqb a c.
(** [.]: any character but the newline *)
Definition dot (c : ascii) : bool := negb (between 10 10 c).
(** [\w] *)
Definition word (c : ascii) : bool :=
  between 97 122 c || between 65 90 c || between 48 57 c || between 95 95 c.
(** [\s]: space, [\t], [\n], [\v], [\f], [\r] *)
Definition space (c : ascii) : bool := between 32 32 c || between 9 13 c.
(** [\d] *)
Definition digit (c : ascii) : bool := between 48 57 c.

(** The text that a match starting at [s] and stopping at its suffix [rest]
    went over. *)
Definition consumed (s rest : string) : string :=
  String.substring 0 (String.length s - String.length rest) s.

Section Backtrack.
Context {R : Type}.

Fixpoint lit_k (text s : string) (k : string -> option R) : option R :=
  match text with
  | EmptyString => k s
  | String a text' =>
      match s with
      | EmptyString => None
      | String c s' => if Ascii.eqb a c then lit_k text' s' k else None
      end
  end.

Fixpoint star_k (cls : ascii -> bool) (s : string) (k : string -> option R)
  : option R :=
  match s with
  | EmptyString => k s
  | String c s' =>
      if cls c
      then match star_k cls s' k with
           | Some r => Some r
           | None => k s
           end
      else k s
  end.

Definition plus_k (cls : ascii -> bool) (s : string) (k : string -> option R)
  : option R :=
  match s with
  | EmptyString => None
  | String c s' => if cls c then star_k cls s' k else None
  end.

Fixpoint match_k (r : regex) (s : string) (g : gmap string string)
    (k : string -> gmap string string -> option R) : option R :=
  match r with
  | Lit text => lit_k text s (fun rest => k rest g)
  | Star cls => star_k cls s (fun rest => k rest g)
  | Plus cls => plus_k cls s (fun rest => k rest g)
  | Named name r' =>
      match_k r' s g (fun rest g' => k rest (<[name := consumed s rest]> g'))
  | Cat r1 r2 => match_k r1 s g (fun rest g' => match_k r2 rest g' k)
  end.
End Backtrack.

(** [regex.match(line)]: a match anchored at the start of [line] (not at its
    end); [Some] stands for the match object, and carries its
    [groupdict()]. *)
Definition match_ (r : regex) (line : string) : option (gmap string string) :=
  match_k r line ∅ (fun _ g => Some g).

(** The length of the match of [r] at the start of [s]. *)
Definition match_length (r : regex) (s : string) : option nat :=
  match_k r s ∅ (fun rest _ => Some (String.length s - String.length rest)%nat).

(** [regex.findall(line)] for a pattern without groups that matches no empty
    string: the non-overlapping matches, scanning from the left.  [skip]
    counts the characters of the last match still to be passed over. *)
Fixpoint findall_go (r : regex) (skip : nat) (s : string) : list string :=
  match s with
  | EmptyString => []
  | String _ s' =>
      match skip with
      | S k => findall_go r k s'
      | O =>
          match match_length r s with
          | Some n => String.substring 0 n s :: findall_go r (Nat.pred n) s'
          | None => findall_go r O s'
          end
      end
  end.

Definition findall (r : regex) (line : string) : list string :=
  findall_go r O line.
End Re.

Import Re.

Infix "+++" := Cat (at level 60, right associativity).

(** [[abc...]]: a character that one of the listed classes accepts *)
Definition any_of (classes : list (ascii -> bool)) (c : ascii) : bool :=
  existsb (fun cls => cls c) classes.

(** ** The pattern catalog *)

Definition ssl_regexs : list regex :=
  [ Star dot +++ Lit "/C=" +++ Named "country" (Plus (any_of [word])) +++ Star dot;
    Star dot +++ Lit "/ST=" +++ Named "state" (Plus (any_of [word; space])) +++ Star dot;
    Star dot +++ Lit "/L=" +++ Named "location" (Plus (any_of [word; space])) +++ Star dot;
    Star dot +++ Lit "/O="
      +++ Named "organization"
            (Plus (any_of [word; space; chr ","; chr "'"; chr "-"; chr "."]))
      +++ Star dot;
    Star dot +++ Lit "/OU="
      +++ Named "unit" (Plus (any_of [word; space; chr ","; chr "-"; chr "."]))
      +++ Star dot;
    Star dot +++ Lit "/CN="
      +++ Named "common_name" (Plus (any_of [word; space; chr "'"; chr "-"; chr "."]))
      +++ Star dot ].

Definition ssl_text_regexs : list regex :=
  [ Star dot +++ Lit "Public Key Algorithm: " +++ Named "public_key_algorithm" (Star dot);
    Star dot +++ Lit "Public-Key: (" +++ Named "length" (Plus digit) +++ Star dot +++ Lit ")";
    Star dot +++ Lit "Signature Algorithm: " +++ Named "signature_algorithm" (Star dot) ].

Definition ssl_dns_regex : regex :=
  Lit "DNS:" +++ Plus (any_of [word; space; chr "-"; chr "."]).

(** ** Python values *)

(** What the dictionaries of the module hold: strings and integers, lists and
    dictionaries of them, and [None]. *)
Inductive scalar : Type :=
| SInt (z : Z)
| SStr (s : string).

Inductive value : Type :=
| VNone
| VScalar (x : scalar)
| VList (l : list scalar)
| VDict (d : gmap string scalar).

Abbreviation VInt z := (VScalar (SInt z)).
Abbreviation VStr s := (VScalar (SStr s)).

#[global] Instance scalar_eq_dec : EqDecision scalar.
Proof. solve_decision. Defined.

Module Py.
(** [bool(v)] *)
Definition truthy (v : value) : bool :=
  match v with
  | VNone => false
  | VInt z => negb (z =? 0)
  | VStr s => Str.truthy s
  | VList l => match l with [] => false | _ :: _ => true end
  | VDict d => negb (bool_decide (d = ∅))
  end.

(** [d or None] *)
Definition or_none {A : Type} (d : gmap string A) : option (gmap string A) :=
  if bool_decide (d = ∅) then None else Some d.

(** [l[i]] *)
Definition index {A : Type} (l : list A) (i : nat) : res A :=
  match l !! i with
  | Some x => Ok x
  | None => Raise IndexError
  end.

(** [d[k]] on a dictionary of values *)
Definition getitem (d : gmap string value) (k : string) : res value :=
  match d !! k with
  | Some v => Ok v
  | None => Raise KeyError
  end.

(** [d.get(k)] *)
Definition get (d : gmap string value) (k : string) : value :=
  match d !! k with
  | Some v => v
  | None => VNone
  end.

(** [v[k]] for a string [k]: a dictionary looks the key up, [None] and
    numbers have no subscript, strings and lists want an integer. *)
Definition subscript (v : value) (k : string) : res scalar :=
  match v with
  | VDict d =>
      match d !! k with
      | Some x => Ok x
      | None => Raise KeyError
      end
  | _ => Raise TypeError
  end.

(** [x in v] *)
Definition contains (v : value) (x : scalar) : res bool :=
  match v with
  | VList l => Ok (bool_decide (x ∈ l))
  | VDict d =>
      Ok (match x with
          | SStr k => bool_decide (is_Some (d !! k))
          | SInt _ => false
          end)
  | VStr s =>
      match x with
      | SStr sub => Ok (Str.contains sub s)
      | SInt _ => Raise TypeError
      end
  | _ => Raise TypeError
  end.

(** [v.append(x)] *)
Definition append (v : value) (x : scalar) : res value :=
  match v with
  | VList l => Ok (VList (l ++ [x]))
  | _ => Raise AttributeError
  end.

(** [int(v)] *)
Definition int (v : value) : res Z :=
  match v with
  | VInt z => Ok z
  | VStr s => Str.to_int s
  | _ => Raise TypeError
  end.

Definition of_dict (o : option (gmap string scalar)) : value :=
  match o with
  | Some d => VDict d
  | None => VNone
  end.

Definition of_str (o : option string) : value :=
  match o with
  | Some s => VStr s
  | None => VNone
  end.
End Py.

(** ** The collaborators and the trace *)

(** What the module asks of its environment.  None of these is defined in
    the module itself. *)
Record World : Type := {
  (** [open(filename, 'r')] followed by [close()]: [None] when both succeed,
      the exception otherwise *)
  open_file : string -> option exn;
  (** [int(os.path.getmtime(filename))] *)
  getmtime : string -> res Z;
  (** [subp.call(command, check=False)]: the lines of the standard output
      and of the standard error *)
  subp_call : string -> res (list string * list string);
  (** [int(datetime.datetime.strptime(value, '%b %d %H:%M:%S %Y %Z').strftime('%s'))] *)
  strptime_epoch : string -> res Z;
}.

(** What an analysis leaves behind: the entries of [context.log] and the
    commands handed to [subp.call]. *)
Inductive event : Type :=
| LogInfo (message : string)
| LogDebug (message : string)
| LogDebugElapsed (filename : string)
| Call (command : string).

Definition is_call (ev : event) : bool :=
  match ev with
  | Call _ => true
  | _ => false
  end.

(** A computation that may raise and that adds events to the trace. *)
Definition M (A : Type) : Type := list event -> res A * list event.

Module Eff.
Definition ret {A : Type} (a : A) : M A := fun t => (Ok a, t).

Definition bind {A B : Type} (m : M A) (k : A -> M B) : M B :=
  fun t =>
    match m t with
    | (Ok a, t') => k a t'
    | (Raise e, t') => (Raise e, t')
    end.

Definition lift {A : Type} (r : res A) : M A := fun t => (r, t).

Definition emit (ev : event) : M unit := fun t => (Ok tt, (t ++ [ev])%list).

(** [try: body / except <classes>: handler] *)
Definition try_except {A : Type} (body : M A) (catches : exn -> bool)
    (handler : exn -> M A) : M A :=
  fun t =>
    match body t with
    | (Ok a, t') => (Ok a, t')
    | (Raise e, t') => if catches e then handler e t' else (Raise e, t')
    end.

(** [try: body / finally: final] *)
Definition finally {A : Type} (body : M A) (final : M unit) : M A :=
  fun t =>
    match body t with
    | (r, t') =>
        match final t' with
        | (Ok _, t'') => (r, t'')
        | (Raise e, t'') => (Raise e, t'')
        end
    end.
End Eff.

#[global] Instance M_ret : MRet M := @Eff.ret.
#[global] Instance M_bind : MBind M := fun A B k m => Eff.bind m k.

(** [e.__class__.__name__] *)
Definition exn_name (e : exn) : string :=
  match e with
  | IOError => "IOError"
  | OSError => "OSError"
  | ValueError => "ValueError"
  | TypeError => "TypeError"
  | KeyError => "KeyError"
  | IndexError => "IndexError"
  | AttributeError => "AttributeError"
  | OtherError name => name
  end.

Definition is_IOError (e : exn) : bool :=
  match e with
  | IOError => true
  | _ => false
  end.

(** [except Exception]: every member of [exn] is one. *)
Definition is_Exception (e : exn) : bool := true.

Section Extractors.
Variable w : World.

Definition call (command : string) : M (list string * list string) :=
  Eff.emit (Call command) ;; Eff.lift (subp_call w command).

Definition openssl_x509 (filename flag : string) : string :=
  "openssl x509 -in " ++ filename ++ " -noout " ++ flag.

(** *** certificate_dates *)

Definition dates_keys : gmap string string :=
  {[ "notBefore" := "start"; "notAfter" := "end" ]}.

(** One turn of the loop over the output lines. *)
Definition dates_line (results : gmap string scalar) (line : string)
  : res (gmap string scalar) :=
  if Str.truthy line then
    match Str.split "=" line with
    | [key; value] =>
        match dates_keys !! key with
        | Some name =>
            seconds ← strptime_epoch w value;
            mret (<[name := SInt seconds]> results)
        | None => mret results
        end
    | _ => Raise ValueError
    end
  else mret results.

Definition certificate_dates (filename : string) : M (option (gmap string scalar)) :=
  '(openssl_out, _) ← call (openssl_x509 filename "-dates");
  results ← Eff.lift (Res.foldM dates_line openssl_out ∅);
  mret (Py.or_none results).

(** *** certificate_subject, certificate_issuer *)

(** [results.update(match_obj.groupdict())] when [regex] matches *)
Definition dn_regex (line : string) (results : gmap string scalar) (regex : regex)
  : gmap string scalar :=
  match match_ regex line with
  | Some groupdict => (SStr <$> groupdict) ∪ results
  | None => results
  end.

Definition dn_line (results : gmap string scalar) (line : string)
  : gmap string scalar :=
  if Str.truthy line then foldl (dn_regex line) results ssl_regexs else results.

Definition certificate_subject (filename : string) : M (option (gmap string scalar)) :=
  '(openssl_out, _) ← call (openssl_x509 filename "-subject");
  mret (Py.or_none (foldl dn_line ∅ openssl_out)).

Definition certificate_issuer (filename : string) : M (option (gmap string scalar)) :=
  '(openssl_out, _) ← call (openssl_x509 filename "-issuer");
  mret (Py.or_none (foldl dn_line ∅ openssl_out)).

(** *** certificate_purpose *)

Definition purpose_line (results : gmap string scalar) (line : string)
  : gmap string scalar :=
  if Str.truthy line then
    let split := Str.split " : " line in
    if (length split =? 2)%nat then
      match Str.split " : " line with
      | [key; value] => <[key := SStr value]> results
      | _ => results
      end
    else results
  else results.

Definition certificate_purpose (filename : string) : M (option (gmap string scalar)) :=
  '(openssl_out, _) ← call (openssl_x509 filename "-purpose");
  mret (Py.or_none (foldl purpose_line ∅ openssl_out)).

(** *** certificate_ocsp_uri *)

Definition certificate_ocsp_uri (filename : string) : M (option string) :=
  '(openssl_out, _) ← call (openssl_x509 filename "-ocsp_uri");
  first ← Eff.lift (Py.index openssl_out 0);
  mret (if Str.truthy first then Some first else None).

(** *** certificate_full *)

(** [x.split(':')[1]] *)
Definition after_colon (x : string) : res scalar :=
  name ← Py.index (Str.split ":" x) 1;
  mret (SStr name).

(** [map(lambda x: x.split(':')[1], dns_matches)] *)
Definition dns_names (dns_matches : list string) : res (list scalar) :=
  Res.mapM after_colon dns_matches.

(** One turn of the inner loop, over [ssl_text_regexs]: on a match the
    groups are merged and [continue] goes to the next pattern; otherwise
    the line is searched for DNS tokens. *)
Definition full_regex (line : string) (results : gmap string value) (regex : regex)
  : res (gmap string value) :=
  match match_ regex line with
  | Some groupdict => mret (((fun s => VStr s) <$> groupdict) ∪ results)
  | None =>
      let dns_matches := findall ssl_dns_regex line in
      match dns_matches with
      | _ :: _ =>
          names ← dns_names dns_matches;
          mret (<["names" := VList names]> results)
      | [] => mret results
      end
  end.

(** One turn of the outer loop, over the output lines. *)
Definition full_line (results : gmap string value) (line : string)
  : res (gmap string value) :=
  Res.foldM (full_regex line) ssl_text_regexs results.

Definition certificate_full (filename : string) : M (option (gmap string value)) :=
  '(openssl_out, _) ← call (openssl_x509 filename "-text");
  results ← Eff.lift (Res.foldM full_line openssl_out ∅);
  mret (Py.or_none results).

(** *** ssl_analysis *)

(** [if 'length' in results: results['length'] = int(results['length'])] *)
Definition coerce_length (results : gmap string value) : res (gmap string value) :=
  match results !! "length" with
  | Some v =>
      n ← Py.int v;
      mret (<["length" := VInt n]> results)
  | None => mret results
  end.

(** [results['subject']['common_name']] *)
Definition subject_common_name (results : gmap string value) : res scalar :=
  subject ← Py.getitem results "subject";
  Py.subscript subject "common_name".

(** The reconciliation of the names with the subject's common name. *)
Definition reconcile_names (results : gmap string value) : res (gmap string value) :=
  if Py.truthy (Py.get results "names") then
    common_name ← subject_common_name results;
    names ← Py.getitem results "names";
    present ← Py.contains names common_name;
    if negb present then
      names ← Py.getitem results "names";
      common_name ← subject_common_name results;
      names' ← Py.append names common_name;
      mret (<["names" := names']> results)
    else mret results
  else
    common_name ← subject_common_name results;
    mret (<["names" := VList [common_name]]> results).

(** The body of the second [try]. *)
Definition analyze (filename : string) : M (gmap string value) :=
  let results : gmap string value := ∅ in
  modified ← Eff.lift (getmtime w filename);
  let results := <["modified" := VInt modified]> results in
  dates ← certificate_dates filename;
  let results := <["dates" := Py.of_dict dates]> results in
  subject ← certificate_subject filename;
  let results := <["subject" := Py.of_dict subject]> results in
  issuer ← certificate_issuer filename;
  let results := <["issuer" := Py.of_dict issuer]> results in
  purpose ← certificate_purpose filename;
  let results := <["purpose" := Py.of_dict purpose]> results in
  ocsp_uri ← certificate_ocsp_uri filename;
  let results := <["ocsp_uri" := Py.of_str ocsp_uri]> results in
  additional_info ← certificate_full filename;
  (* [if additional_info:] what [certificate_full] returns is [None] or a
     dictionary that is not empty *)
  let results :=
    match additional_info with
    | Some info => info ∪ results
    | None => results
    end in
  results ← Eff.lift (coerce_length results);
  Eff.lift (reconcile_names results).

(** The first [try]: can the certificate file be opened? *)
Definition check_readable (filename : string) : M bool :=
  Eff.try_except
    (Eff.lift (match open_file w filename with
               | None => Ok true
               | Some e => Raise e
               end))
    is_IOError
    (fun _ =>
       Eff.emit (LogInfo ("could not read " ++ filename ++ " (maybe permissions?)")) ;;
       mret false).

Definition ssl_analysis (filename : string) : M (option (gmap string value)) :=
  Eff.emit (LogInfo ("ssl certificate found " ++ filename)) ;;
  readable ← check_readable filename;
  if readable : bool then
    Eff.finally
      (Eff.try_except
         (results ← analyze filename; mret (Some results))
         is_Exception
         (fun e =>
            Eff.emit (LogDebug ("failed to analyze certificate " ++ filename
                                  ++ " due to: " ++ exn_name e)) ;;
            mret None))
      (Eff.emit (LogDebugElapsed filename))
  else mret None.
End Extractors.

(** ** A certificate on disk, as the tool reports it

    The collaborators of a readable certificate file: the output of each
    [openssl x509] mode, one string per line (the last line is empty, as when
    the output of a process is cut at its newlines). *)

Module Sample.
Definition filename : string := "/etc/nginx/certs.d/example.crt".

Definition dates_out : list string :=
  [ "notBefore=Jan  1 00:00:00 2020 GMT";
    "notAfter=Jan  1 00:00:00 2030 GMT";
    "" ].

Definition subject_out : list string :=
  [ "subject= /C=US/ST=California/O=Example, Inc./CN=example.com"; "" ].

Definition issuer_out : list string :=
  [ "issuer= /C=US/O=Example Trust Services/CN=Example Root CA"; "" ].

Definition purpose_out : list string :=
  [ "Certificate purposes:";
    "SSL client : Yes";
    "SSL client CA : No";
    "SSL server : Yes";
    "Any Purpose";
    "" ].

Definition ocsp_out : list string := [ "http://ocsp.example.com"; "" ].

Definition text_out : list string :=
  [ "Certificate:";
    "    Data:";
    "        Version: 3 (0x2)";
    "    Signature Algorithm: sha256WithRSAEncryption";
    "        Subject Public Key Info:";
    "            Public Key Algorithm: rsaEncryption";
    "                Public-Key: (2048 bit)";
    "            X509v3 Subject Alternative Name: ";
    "                DNS:example.com, DNS:www.example.com";
    "" ].

Definition epoch (value : string) : res Z :=
  if String.eqb value "Jan  1 00:00:00 2020 GMT" then Ok 1577836800
  else if String.eqb value "Jan  1 00:00:00 2030 GMT" then Ok 1893456000
  else Raise ValueError.

(** The command runner of a machine on which the full-text dump is [text]
    and the OCSP query prints [ocsp]. *)
Definition tool (subject ocsp text : list string) (command : string)
  : res (list string * list string) :=
  if String.eqb command (openssl_x509 filename "-dates") then Ok (dates_out, [""])
  else if String.eqb command (openssl_x509 filename "-subject") then Ok (subject, [""])
  else if String.eqb command (openssl_x509 filename "-issuer") then Ok (issuer_out, [""])
  else if String.eqb command (openssl_x509 filename "-purpose") then Ok (purpose_out, [""])
  else if String.eqb command (openssl_x509 filename "-ocsp_uri") then Ok (ocsp, [""])
  else if String.eqb command (openssl_x509 filename "-text") then Ok (text, [""])
  else Ok ([""], ["unable to load certificate"; ""]).

Definition world_with (subject ocsp text : list string) : World :=
  {| open_file := fun _ => None;
     getmtime := fun _ => Ok 1600000000;
     subp_call := tool subject ocsp text;
     strptime_epoch := epoch |}.

Definition world : World := world_with subject_out ocsp_out text_out.

(** The same machine when the file cannot be read: [open] raises
    [IOError]. *)
Definition world_unreadable : World :=
  {| open_file := fun _ => Some IOError;
     getmtime := getmtime world;
     subp_call := subp_call world;
     strptime_epoch := epoch |}.

(** [open] refuses a path that holds a NUL byte before it asks the file
    system, and with a [TypeError]. *)
Definition nul : string := String Ascii.zero EmptyString.

Definition open_checked (path : string) : option exn :=
  if Str.contains nul path then Some TypeError else None.

Definition nul_path : string := "/etc/nginx/certs.d/example" ++ nul ++ ".crt".

Definition world_checked : World :=
  {| open_file := open_checked;
     getmtime := getmtime world;
     subp_call := subp_call world;
     strptime_epoch := epoch |}.
End Sample.

(** ** What the properties speak of *)

(** The names of the groups of a pattern. *)
Fixpoint group_names (r : regex) : list string :=
  match r with
  | Lit _ | Star _ | Plus _ => []
  | Named name r' => name :: group_names r'
  | Cat r1 r2 => group_names r1 ++ group_names r2
  end.

(** The keys of the groups of [ssl_text_regexs]. *)
Definition text_keys : list string :=
  ["public_key_algorithm"; "length"; "signature_algorithm"].

(** What the extractor has gathered is well-formed: a non-empty list under
    [names], strings under the keys of the algorithm patterns, and nothing
    else. *)
Definition full_wf (results : gmap string value) : Prop :=
  forall key v,
    results !! key = Some v ->
    (key = "names" /\ exists l, v = VList l /\ l <> []) \/
    (key ∈ text_keys /\ exists s, v = VStr s).

(** What the reconciliation leaves under [names], given the list that the
    full-text extractor gathered, if it gathered one. *)
Definition reconciled_names (gathered : option (list scalar)) (common_name : scalar)
  : list scalar :=
  match gathered with
  | Some names =>
      if bool_decide (common_name ∈ names) then names else names ++ [common_name]
  | None => [common_name]
  end.

(** The commands that a trace hands to the runner. *)
Definition calls (t : list event) : list event := filter (fun ev => is_call ev = true) t.

(** The result of each extractor, from what the runner returns alone, and the
    entries that the orchestrator writes to the log. *)
Section Outcomes.
Variable w : World.
Variable filename : string.

(** The standard output of [openssl x509] in the mode [flag]. *)
Definition tool_lines (flag : string) : res (list string) :=
  match subp_call w (openssl_x509 filename flag) with
  | Ok (openssl_out, _) => Ok openssl_out
  | Raise e => Raise e
  end.

Definition dates_outcome : res (option (gmap string scalar)) :=
  openssl_out ← tool_lines "-dates";
  results ← Res.foldM (dates_line w) openssl_out ∅;
  mret (Py.or_none results).

Definition dn_outcome (flag : string) : res (option (gmap string scalar)) :=
  openssl_out ← tool_lines flag;
  mret (Py.or_none (foldl dn_line ∅ openssl_out)).

Definition purpose_outcome : res (option (gmap string scalar)) :=
  openssl_out ← tool_lines "-purpose";
  mret (Py.or_none (foldl purpose_line ∅ openssl_out)).

Definition ocsp_uri_outcome : res (option string) :=
  openssl_out ← tool_lines "-ocsp_uri";
  first ← Py.index openssl_out 0;
  mret (if Str.truthy first then Some first else None).

Definition full_outcome : res (option (gmap string value)) :=
  openssl_out ← tool_lines "-text";
  results ← Res.foldM full_line openssl_out ∅;
  mret (Py.or_none results).

(** The dictionary at the end of the extraction stage. *)
Definition extracted (modified : Z) (dates subject issuer purpose : option (gmap string scalar))
    (ocsp_uri : option string) (additional_info : option (gmap string value))
  : gmap string value :=
  let results : gmap string value :=
    <["ocsp_uri" := Py.of_str ocsp_uri]>
      (<["purpose" := Py.of_dict purpose]>
         (<["issuer" := Py.of_dict issuer]>
            (<["subject" := Py.of_dict subject]>
               (<["dates" := Py.of_dict dates]>
                  (<["modified" := VInt modified]> ∅))))) in
  match additional_info with
  | Some info => info ∪ results
  | None => results
  end.

(** The names that the full-text extractor gathered. *)
Definition gathered_names : option (list scalar) :=
  match fst (certificate_full w filename []) with
  | Ok (Some info) =>
      match info !! "names" with
      | Some (VList names) => Some names
      | _ => None
      end
  | _ => None
  end.

(** The entries of the log. *)
Definition found : event := LogInfo ("ssl certificate found " ++ filename).
Definition unreadable : event :=
  LogInfo ("could not read " ++ filename ++ " (maybe permissions?)").
Definition failed (e : exn) : event :=
  LogDebug ("failed to analyze certificate " ++ filename ++ " due to: " ++ exn_name e).
End Outcomes.

(** The record that a run returned (empty when it returned none). *)
Definition returned (run : res (option (gmap string value)) * list event)
  : gmap string value :=
  match fst run with
  | Ok (Some results) => results
  | _ => ∅
  end.

(** [sep.join(pieces)] *)
Fixpoint join_with (sep : string) (pieces : list string) : string :=
  match pieces with
  | [] => EmptyString
  | [piece] => piece
  | piece :: pieces' => piece ++ sep ++ join_with sep pieces'
  end.

(** Every character of [s] is in the class [cls]. *)
Fixpoint all_of (cls : ascii -> bool) (s : string) : bool :=
  match s with
  | EmptyString => true
  | String c s' => cls c && all_of cls s'
  end.

(** The six commands of an analysis, in the order in which they are run. *)
Definition commands (filename : string) : list event :=
  map (fun flag => Call (openssl_x509 filename flag))
    ["-dates"; "-subject"; "-issuer"; "-purpose"; "-ocsp_uri"; "-text"].

(** The names of the components of a distinguished name. *)
Definition dn_keys : list string :=
  ["country"; "state"; "location"; "organization"; "unit"; "common_name"].

(** The key length that the full-text extractor gathers, when it gathers one,
    is a non-empty string of digits. *)
Definition length_wf (results : gmap string value) : Prop :=
  forall v,
    results !! "length" = Some v ->
    exists c digits, v = VStr (String c digits) /\ all_of digit (String c digits) = true.

(** The digits that the full-text extractor gathered under [length], when it
    gathered any. *)
Definition gathered_length (w : World) (filename : string) : option string :=
  match fst (certificate_full w filename []) with
  | Ok (Some info) =>
      match info !! "length" with
      | Some (VStr digits) => Some digits
      | _ => None
      end
  | _ => None
  end.

(** The [length] gathered from the lines [openssl_out] is the run of digits
    that a pattern of [ssl_text_regexs] captured under that name on one of
    the lines. *)
Definition length_from (openssl_out : list string) (results : gmap string value)
  : Prop :=
  forall v,
    results !! "length" = Some v ->
    exists line regex c digits,
      line ∈ openssl_out /\
      regex ∈ ssl_text_regexs /\
      match_ regex line = Some {[ "length" := String c digits ]} /\
      all_of digit (String c digits) = true /\
      v = VStr (String c digits).

(** * Properties *)

(** An equation between closed terms, settled by evaluating both sides. *)
Ltac by_evaluation :=
  lazymatch goal with
  | |- ?x = _ => vm_cast_no_check (@eq_refl _ x)
  end.

(** ** Splitting *)

Lemma split_go_cons sep skip s :
  exists piece pieces, Str.split_go sep skip s = piece :: pieces.
Proof.
  revert skip; induction s as [|c s IH]; intros skip; simpl.
  - eauto.
  - destruct skip as [|k]; [|apply IH].
    destruct (Str.startswith sep (String c s)); [eauto|].
    destruct (IH O) as (piece & pieces & ->); eauto.
Qed.

(** Cutting at a one-character separator gives one piece more than there are
    separators. *)
Lemma split_char_length a s :
  length (Str.split (String a EmptyString) s) = S (Str.count a s).
Proof.
  unfold Str.split.
  induction s as [|c s IH]; simpl; [reflexivity|].
  destruct (Ascii.eqb a c); simpl.
  - now rewrite IH.
  - destruct (split_go_cons (String a EmptyString) O s) as (piece & pieces & E).
    rewrite E in *; simpl in *; exact IH.
Qed.

Lemma split_after_DNS rest :
  exists name pieces, Str.split ":" ("DNS:" ++ rest) = "DNS" :: name :: pieces.
Proof.
  unfold Str.split.
  destruct (split_go_cons ":" O rest) as (name & pieces & E).
  exists name, pieces.
  change ("DNS:" ++ rest) with (String "D" (String "N" (String "S" (String ":" rest)))).
  simpl; now rewrite E.
Qed.

(** ** Matching *)

(** The repetition stops at the text it was given. *)
Ltac stop_here :=
  let H := fresh in
  intros H; eexists; split; [|exact H]; simpl; lia.

Section Backtracking.
Context {R : Type}.
Implicit Types (k : string -> option R) (x : R).

Lemma lit_k_inv text s k x :
  lit_k text s k = Some x ->
  exists rest, s = text ++ rest /\ k rest = Some x.
Proof.
  revert s; induction text as [|a text IH]; intros s; simpl.
  - intros H; exists s; split; [reflexivity|assumption].
  - destruct s as [|c s]; [discriminate|].
    destruct (Ascii.eqb_spec a c) as [->|]; [|discriminate].
    intros H; destruct (IH _ H) as (rest & -> & Hk).
    exists rest; split; [reflexivity|assumption].
Qed.

Lemma star_k_inv cls s k x :
  star_k cls s k = Some x ->
  exists rest, (String.length rest <= String.length s)%nat /\ k rest = Some x.
Proof.
  induction s as [|c s IH]; simpl.
  - stop_here.
  - destruct (cls c); [|stop_here].
    destruct (star_k cls s k) as [y|] eqn:E; [|stop_here].
    intros [= ->]; destruct (IH eq_refl) as (rest & Hlen & Hk).
    exists rest; split; [lia|assumption].
Qed.

Lemma plus_k_inv cls s k x :
  plus_k cls s k = Some x ->
  exists rest, (String.length rest <= String.length s)%nat /\ k rest = Some x.
Proof.
  destruct s as [|c s]; simpl; [discriminate|].
  destruct (cls c); [|discriminate].
  intros H; destruct (star_k_inv _ _ _ _ H) as (rest & Hlen & Hk).
  exists rest; split; [lia|assumption].
Qed.
End Backtracking.


(** A match reaches its continuation with no other groups than those of the
    pattern added to the ones it started from. *)
Lemma match_k_inv {R : Type} r :
  forall s g (k : string -> gmap string string -> option R) x,
    match_k r s g k = Some x ->
    exists rest g',
      k rest g' = Some x /\
      (forall name, is_Some (g' !! name) -> is_Some (g !! name) \/ name ∈ group_names r).
Proof.
  induction r as [text|cls|cls|name r IH|r1 IH1 r2 IH2]; intros s g k x; simpl.
  - intros H; apply lit_k_inv in H as (rest & _ & Hk); eauto 6.
  - intros H; apply star_k_inv in H as (rest & _ & Hk); eauto 6.
  - intros H; apply plus_k_inv in H as (rest & _ & Hk); eauto 6.
  - intros H; apply IH in H as (rest & g' & Hk & Hg).
    eexists _, _; split; [exact Hk|].
    intros name' Hn.
    destruct (decide (name = name')) as [->|Hne].
    + right; set_solver.
    + rewrite lookup_insert_ne in Hn by assumption.
      destruct (Hg _ Hn); [now left|right; set_solver].
  - intros H; apply IH1 in H as (rest1 & g1 & Hk1 & Hg1).
    apply IH2 in Hk1 as (rest2 & g2 & Hk2 & Hg2).
    eexists _, _; split; [exact Hk2|].
    intros name Hn.
    destruct (Hg2 _ Hn) as [Hn1|]; [|right; set_solver].
    destruct (Hg1 _ Hn1); [now left|right; set_solver].
Qed.

Lemma match_groups r line groupdict name :
  match_ r line = Some groupdict ->
  is_Some (groupdict !! name) ->
  name ∈ group_names r.
Proof.
  unfold match_; intros H Hn.
  apply match_k_inv in H as (rest & g' & [= ->] & Hg).
  destruct (Hg _ Hn) as [Hempty|]; [|assumption].
  rewrite lookup_empty in Hempty; now destruct Hempty.
Qed.

(** Every match of the DNS pattern starts with the token's prefix. *)
Lemma dns_match_prefix s n :
  match_length ssl_dns_regex s = Some n ->
  exists rest, String.substring 0 n s = "DNS:" ++ rest.
Proof.
  unfold match_length, ssl_dns_regex; cbn [match_k].
  intros H; apply lit_k_inv in H as (rest & -> & H).
  apply plus_k_inv in H as (rest' & Hlen & [= <-]).
  cbv [String.append]; cbn [String.length].
  replace (S (S (S (S (String.length rest)))) - String.length rest')%nat
    with (S (S (S (S (String.length rest - String.length rest'))))) by lia.
  cbn [String.substring]; eexists; reflexivity.
Qed.

Lemma findall_dns_prefix s :
  forall skip x,
    x ∈ findall_go ssl_dns_regex skip s -> exists rest, x = "DNS:" ++ rest.
Proof.
  induction s as [|c s IH]; intros skip x; simpl.
  - intros H; inversion H.
  - destruct skip as [|k]; [|apply IH].
    destruct (match_length ssl_dns_regex (String c s)) as [n|] eqn:E; [|apply IH].
    intros [->|H]%elem_of_cons; [|eapply IH, H].
    apply dns_match_prefix in E as (rest & E); eauto.
Qed.

(** ** The full-text extractor, line by line *)

Lemma after_colon_DNS rest :
  exists name, after_colon ("DNS:" ++ rest) = Ok (SStr name).
Proof.
  unfold after_colon.
  destruct (split_after_DNS rest) as (name & pieces & ->); eauto.
Qed.

(** The names of the tokens of a line are always found: no token lacks its
    colon. *)
Lemma dns_names_total line :
  exists names,
    dns_names (findall ssl_dns_regex line) = Ok names /\
    Forall2 (fun x name => after_colon x = Ok name) (findall ssl_dns_regex line) names.
Proof.
  unfold dns_names, findall.
  pose proof (findall_dns_prefix line O) as Hall.
  induction (findall_go ssl_dns_regex 0 line) as [|x matches IH]; simpl.
  - eauto.
  - destruct (Hall x) as (rest & ->); [left|].
    destruct (after_colon_DNS rest) as (name & En).
    destruct IH as (names & Em & Hnames); [intros; apply Hall; now right|].
    exists (SStr name :: names); split; [|now constructor].
    rewrite En; simpl; now rewrite Em.
Qed.


Lemma text_groupdict regex line groupdict name :
  regex ∈ ssl_text_regexs ->
  match_ regex line = Some groupdict ->
  is_Some (groupdict !! name) ->
  name ∈ text_keys.
Proof.
  intros Hin Hm Hn; pose proof (match_groups _ _ _ _ Hm Hn) as Hg.
  unfold ssl_text_regexs in Hin; unfold text_keys.
  repeat (apply elem_of_cons in Hin as [->|Hin]; [simpl in Hg; set_solver|]).
  inversion Hin.
Qed.


Lemma full_wf_empty : full_wf ∅.
Proof. intros key v H; rewrite lookup_empty in H; discriminate. Qed.

Lemma names_not_text_key : "names" ∉ text_keys.
Proof. unfold text_keys; set_solver. Qed.

(** When a pattern matches, the groups are merged and the names are left
    alone. *)
Lemma full_regex_match line results regex groupdict :
  regex ∈ ssl_text_regexs ->
  match_ regex line = Some groupdict ->
  exists results',
    full_regex line results regex = Ok results' /\
    results' !! "names" = results !! "names" /\
    (full_wf results -> full_wf results').
Proof.
  intros Hin Hm; unfold full_regex; rewrite Hm.
  eexists; split; [reflexivity|split].
  - rewrite lookup_union_r; [reflexivity|].
    rewrite lookup_fmap.
    destruct (groupdict !! "names") eqn:E; [|reflexivity].
    exfalso; apply names_not_text_key.
    eapply text_groupdict; eauto.
  - intros Hwf key v.
    rewrite lookup_union_Some_raw, lookup_fmap.
    intros [H|[_ H]]; [|now apply Hwf].
    destruct (groupdict !! key) as [s|] eqn:E; [|discriminate].
    injection H as <-; right; split; [|eauto].
    eapply text_groupdict; eauto.
Qed.

(** When it does not, the line is searched for tokens. *)
Lemma full_regex_no_match line results regex :
  match_ regex line = None ->
  exists results',
    full_regex line results regex = Ok results' /\
    (findall ssl_dns_regex line = [] -> results' = results) /\
    (findall ssl_dns_regex line <> [] ->
     exists names,
       dns_names (findall ssl_dns_regex line) = Ok names /\
       results' = <["names" := VList names]> results) /\
    (full_wf results -> full_wf results').
Proof.
  intros Hm; unfold full_regex; rewrite Hm.
  destruct (dns_names_total line) as (names & E & Hnames).
  destruct (findall ssl_dns_regex line) as [|x matches] eqn:Ef.
  - eexists; split; [reflexivity|]; split; [done|]; split; [|done].
    intros Hne; now destruct Hne.
  - rewrite E; eexists; split; [reflexivity|]; repeat split; [discriminate|eauto|].
    intros Hwf key v.
    destruct (decide (key = "names")) as [->|Hne].
    + rewrite lookup_insert_eq; intros [= <-]; left; split; [reflexivity|].
      eexists; split; [reflexivity|].
      inversion Hnames; discriminate.
    + rewrite lookup_insert_ne by congruence; apply Hwf.
Qed.

(** A loop that keeps an invariant and never raises in a state that has it
    runs to its end. *)
Lemma foldM_invariant {A B : Type} (P : B -> Prop) (f : B -> A -> res B) l :
  forall acc,
    P acc ->
    (forall b x, x ∈ l -> P b -> exists b', f b x = Ok b' /\ P b') ->
    exists b', Res.foldM f l acc = Ok b' /\ P b'.
Proof.
  induction l as [|x l IH]; intros acc Hacc Hstep; simpl.
  - eauto.
  - destruct (Hstep acc x) as (b' & -> & Hb'); [left|assumption|].
    simpl; apply IH; [assumption|].
    intros b y Hy; apply Hstep; now right.
Qed.

Lemma foldM_app {A B : Type} (f : B -> A -> res B) l1 l2 acc :
  Res.foldM f (l1 ++ l2) acc = Res.bind (Res.foldM f l1 acc) (Res.foldM f l2).
Proof.
  revert acc; induction l1 as [|x l1 IH]; intros acc; simpl; [reflexivity|].
  destruct (f acc x); simpl; [apply IH|reflexivity].
Qed.

(** One pattern on one line: it never raises, it keeps the results
    well-formed, and on a line without tokens it leaves the names alone. *)
Lemma full_regex_total line results regex :
  regex ∈ ssl_text_regexs ->
  exists results',
    full_regex line results regex = Ok results' /\
    (full_wf results -> full_wf results') /\
    (findall ssl_dns_regex line = [] -> results' !! "names" = results !! "names").
Proof.
  intros Hin; destruct (match_ regex line) as [groupdict|] eqn:Hm.
  - destruct (full_regex_match line results _ _ Hin Hm) as (results' & E & Hn & Hwf).
    eauto.
  - destruct (full_regex_no_match line results _ Hm)
      as (results' & E & Hsame & _ & Hwf).
    exists results'; repeat split; [assumption..|].
    intros Hnone; now rewrite (Hsame Hnone).
Qed.

Lemma full_line_total line results :
  exists results',
    full_line results line = Ok results' /\
    (full_wf results -> full_wf results') /\
    (findall ssl_dns_regex line = [] -> results' !! "names" = results !! "names").
Proof.
  unfold full_line.
  destruct (foldM_invariant
              (fun r => (full_wf results -> full_wf r) /\
                        (findall ssl_dns_regex line = [] ->
                         r !! "names" = results !! "names"))
              (full_regex line) ssl_text_regexs results)
    as (results' & E & Hwf & Hn); [tauto| |eauto].
  intros b regex Hin [Hwf Hn].
  destruct (full_regex_total line b regex Hin) as (b' & E & Hwf' & Hn').
  exists b'; repeat split; [assumption|tauto|].
  intros Hnone; rewrite Hn', Hn; trivial.
Qed.

(** A line with tokens that no algorithm pattern matches: its names replace
    whatever names were gathered before. *)
Lemma full_line_dns line results :
  findall ssl_dns_regex line <> [] ->
  (forall regex, regex ∈ ssl_text_regexs -> match_ regex line = None) ->
  exists names,
    dns_names (findall ssl_dns_regex line) = Ok names /\
    full_line results line = Ok (<["names" := VList names]> results).
Proof.
  intros Hdns Hnone.
  destruct (dns_names_total line) as (names & E & _).
  exists names; split; [assumption|].
  assert (Hstep : forall r regex,
             regex ∈ ssl_text_regexs ->
             full_regex line r regex = Ok (<["names" := VList names]> r)).
  { intros r regex Hin.
    destruct (full_regex_no_match line r regex (Hnone _ Hin))
      as (r' & -> & _ & Hset & _).
    destruct (Hset Hdns) as (names' & E' & ->); congruence. }
  unfold full_line, ssl_text_regexs; simpl.
  rewrite !Hstep by (unfold ssl_text_regexs; set_solver); simpl.
  rewrite !Hstep by (unfold ssl_text_regexs; set_solver); simpl.
  rewrite !Hstep by (unfold ssl_text_regexs; set_solver); simpl.
  now rewrite !insert_insert_eq.
Qed.

(** The whole dump never raises. *)
Lemma full_lines_total out :
  exists results, Res.foldM full_line out ∅ = Ok results /\ full_wf results.
Proof.
  apply foldM_invariant; [apply full_wf_empty|].
  intros b line _ Hwf.
  destruct (full_line_total line b) as (b' & E & Hwf' & _); eauto.
Qed.

(** ** Running the extractors

    Each extractor hands one command to the runner and then works on the
    lines alone: its result does not depend on the trace, and its trace is
    the one it was given plus that command. *)

Section Runs.
Variable w : World.
Variable filename : string.

Ltac run_tool flag :=
  unfold tool_lines, call, mbind, mret, M_bind, M_ret, res_bind, res_ret,
    Eff.bind, Eff.ret, Eff.lift, Eff.emit, Res.bind;
  destruct (subp_call w (openssl_x509 filename flag)) as [[openssl_out err]|e];
  [|reflexivity].

Lemma certificate_dates_run t :
  certificate_dates w filename t
  = (dates_outcome w filename, (t ++ [Call (openssl_x509 filename "-dates")])%list).
Proof.
  unfold certificate_dates, dates_outcome; run_tool "-dates".
  now destruct (Res.foldM (dates_line w) openssl_out ∅).
Qed.

Lemma certificate_subject_run t :
  certificate_subject w filename t
  = (dn_outcome w filename "-subject", (t ++ [Call (openssl_x509 filename "-subject")])%list).
Proof. unfold certificate_subject, dn_outcome; run_tool "-subject"; reflexivity. Qed.

Lemma certificate_issuer_run t :
  certificate_issuer w filename t
  = (dn_outcome w filename "-issuer", (t ++ [Call (openssl_x509 filename "-issuer")])%list).
Proof. unfold certificate_issuer, dn_outcome; run_tool "-issuer"; reflexivity. Qed.

Lemma certificate_purpose_run t :
  certificate_purpose w filename t
  = (purpose_outcome w filename, (t ++ [Call (openssl_x509 filename "-purpose")])%list).
Proof. unfold certificate_purpose, purpose_outcome; run_tool "-purpose"; reflexivity. Qed.

Lemma certificate_ocsp_uri_run t :
  certificate_ocsp_uri w filename t
  = (ocsp_uri_outcome w filename, (t ++ [Call (openssl_x509 filename "-ocsp_uri")])%list).
Proof.
  unfold certificate_ocsp_uri, ocsp_uri_outcome; run_tool "-ocsp_uri".
  now destruct (Py.index openssl_out 0).
Qed.

Lemma certificate_full_run t :
  certificate_full w filename t
  = (full_outcome w filename, (t ++ [Call (openssl_x509 filename "-text")])%list).
Proof.
  unfold certificate_full, full_outcome; run_tool "-text".
  now destruct (Res.foldM full_line openssl_out ∅).
Qed.


(** An analysis that returns has been through every step. *)
Lemma analyze_ok t results t' :
  analyze w filename t = (Ok results, t') ->
  exists modified dates subject issuer purpose ocsp_uri additional_info coerced,
    getmtime w filename = Ok modified /\
    dates_outcome w filename = Ok dates /\
    dn_outcome w filename "-subject" = Ok subject /\
    dn_outcome w filename "-issuer" = Ok issuer /\
    purpose_outcome w filename = Ok purpose /\
    ocsp_uri_outcome w filename = Ok ocsp_uri /\
    full_outcome w filename = Ok additional_info /\
    coerce_length
      (extracted modified dates subject issuer purpose ocsp_uri additional_info)
      = Ok coerced /\
    reconcile_names coerced = Ok results.
Proof.
  unfold analyze.
  unfold mbind at 1 2 3 4 5 6 7 8, M_bind, Eff.bind, Eff.lift.
  destruct (getmtime w filename) as [modified|]; [|discriminate].
  rewrite certificate_dates_run.
  destruct (dates_outcome w filename) as [dates|]; [|discriminate].
  rewrite certificate_subject_run.
  destruct (dn_outcome w filename "-subject") as [subject|]; [|discriminate].
  rewrite certificate_issuer_run.
  destruct (dn_outcome w filename "-issuer") as [issuer|]; [|discriminate].
  rewrite certificate_purpose_run.
  destruct (purpose_outcome w filename) as [purpose|]; [|discriminate].
  rewrite certificate_ocsp_uri_run.
  destruct (ocsp_uri_outcome w filename) as [ocsp_uri|]; [|discriminate].
  rewrite certificate_full_run.
  destruct (full_outcome w filename) as [additional_info|]; [|discriminate].
  fold (extracted modified dates subject issuer purpose ocsp_uri additional_info).
  destruct (coerce_length _) as [coerced|] eqn:Hc; [|discriminate].
  intros [= H <-].
  exists modified, dates, subject, issuer, purpose, ocsp_uri, additional_info, coerced.
  repeat split; assumption.
Qed.

(** *** The orchestrator, case by case *)


Lemma ssl_analysis_readable t :
  open_file w filename = None ->
  ssl_analysis w filename t
  = match analyze w filename (t ++ [found filename]) with
    | (Ok results, t') => (Ok (Some results), t' ++ [LogDebugElapsed filename])
    | (Raise e, t') => (Ok None, (t' ++ [failed filename e]) ++ [LogDebugElapsed filename])
    end%list.
Proof.
  intros Hopen.
  unfold ssl_analysis, check_readable, mbind, mret, M_bind, M_ret,
    Eff.bind, Eff.ret, Eff.lift, Eff.emit, Eff.try_except, Eff.finally.
  rewrite Hopen; fold (found filename).
  destruct (analyze w filename (t ++ [found filename])%list) as [[results|e] t']; reflexivity.
Qed.

Lemma ssl_analysis_unreadable t :
  open_file w filename = Some IOError ->
  ssl_analysis w filename t = (Ok None, (t ++ [found filename]) ++ [unreadable filename])%list.
Proof.
  intros Hopen.
  unfold ssl_analysis, check_readable, mbind, mret, M_bind, M_ret,
    Eff.bind, Eff.ret, Eff.lift, Eff.emit, Eff.try_except, Eff.finally.
  now rewrite Hopen.
Qed.

Lemma ssl_analysis_open_raises t e :
  open_file w filename = Some e ->
  is_IOError e = false ->
  ssl_analysis w filename t = (Raise e, (t ++ [found filename])%list).
Proof.
  intros Hopen He.
  unfold ssl_analysis, check_readable, mbind, mret, M_bind, M_ret,
    Eff.bind, Eff.ret, Eff.lift, Eff.emit, Eff.try_except, Eff.finally.
  now rewrite Hopen, He.
Qed.
End Runs.

(** ** Assembly *)

Ltac unfold_res := unfold mbind, mret, res_bind, res_ret, Res.bind in *.

Lemma coerce_length_other results coerced key :
  coerce_length results = Ok coerced ->
  key <> "length" ->
  coerced !! key = results !! key.
Proof.
  unfold coerce_length; unfold_res; intros H Hne.
  destruct (results !! "length") as [v|]; [|congruence].
  destruct (Py.int v) as [n|]; [|discriminate].
  injection H as <-; now rewrite lookup_insert_ne by congruence.
Qed.

Lemma coerce_length_int results coerced v :
  coerce_length results = Ok coerced ->
  coerced !! "length" = Some v ->
  exists n, v = VInt n.
Proof.
  unfold coerce_length; unfold_res; intros H Hv.
  destruct (results !! "length") as [v'|] eqn:E; [|congruence].
  destruct (Py.int v') as [n|]; [|discriminate].
  injection H as <-; rewrite lookup_insert_eq in Hv.
  injection Hv as <-; eauto.
Qed.

Lemma subject_common_name_ok results common_name :
  subject_common_name results = Ok common_name ->
  exists subject,
    results !! "subject" = Some (VDict subject) /\
    subject !! "common_name" = Some common_name.
Proof.
  unfold subject_common_name, Py.getitem, Py.subscript; unfold_res.
  destruct (results !! "subject") as [[| | |subject]|]; simpl; try discriminate.
  destruct (subject !! "common_name") eqn:E; [|discriminate].
  intros [= <-]; eauto.
Qed.

(** Without a common name under [subject] the reconciliation raises: a
    [TypeError] when the subject is [None], a [KeyError] when the key is
    missing. *)
Lemma reconcile_names_raises results subject :
  results !! "subject" = Some (Py.of_dict subject) ->
  subject ≫= (fun d => d !! "common_name") = None ->
  exists e, reconcile_names results = Raise e /\ (e = TypeError \/ e = KeyError).
Proof.
  intros Hs Hcn.
  assert (Hraise : exists e, subject_common_name results = Raise e
                             /\ (e = TypeError \/ e = KeyError)).
  { unfold subject_common_name, Py.getitem; unfold_res; rewrite Hs; simpl.
    destruct subject as [d|]; simpl in *; [rewrite Hcn|]; eauto. }
  destruct Hraise as (e & He & Hkind); exists e; split; [|assumption].
  unfold reconcile_names; unfold_res.
  destruct (Py.truthy (Py.get results "names")); now rewrite He.
Qed.

Lemma reconcile_names_other results reconciled key :
  reconcile_names results = Ok reconciled ->
  key <> "names" ->
  reconciled !! key = results !! key.
Proof.
  unfold reconcile_names; unfold_res; intros H Hne.
  destruct (Py.truthy (Py.get results "names"));
    destruct (subject_common_name results) as [common_name|]; simpl in H;
    try discriminate.
  - destruct (Py.getitem results "names") as [names|]; simpl in H; [|discriminate].
    destruct (Py.contains names common_name) as [[|]|]; simpl in H;
      [congruence| |discriminate].
    destruct (Py.append names common_name); simpl in H; [|discriminate].
    injection H as <-; now rewrite lookup_insert_ne by congruence.
  - injection H as <-; now rewrite lookup_insert_ne by congruence.
Qed.


Lemma reconcile_names_ok results reconciled gathered :
  reconcile_names results = Ok reconciled ->
  match gathered with
  | Some names => results !! "names" = Some (VList names) /\ names <> []
  | None => results !! "names" = None
  end ->
  exists common_name,
    subject_common_name results = Ok common_name /\
    reconciled !! "names" = Some (VList (reconciled_names gathered common_name)).
Proof.
  unfold reconcile_names, Py.get, Py.getitem; unfold_res; intros H Hg.
  destruct gathered as [names|]; [destruct Hg as [Hg Hne]|]; rewrite Hg in H;
    simpl in H.
  - destruct names as [|x names]; [congruence|].
    destruct (subject_common_name results) as [common_name|]; simpl in H;
      [|discriminate].
    exists common_name; split; [reflexivity|]; simpl.
    destruct (bool_decide (common_name ∈ x :: names)); simpl in H;
      injection H as <-; [assumption|apply lookup_insert_eq].
  - destruct (subject_common_name results) as [common_name|]; simpl in H;
      [|discriminate].
    injection H as <-; exists common_name; split; [reflexivity|].
    apply lookup_insert_eq.
Qed.

Lemma reconciled_names_elem gathered common_name :
  common_name ∈ reconciled_names gathered common_name.
Proof.
  destruct gathered as [names|]; simpl; [|set_solver].
  destruct (bool_decide_reflect (common_name ∈ names)); set_solver.
Qed.

Section Extracted.
Variable w : World.
Variable filename : string.

Lemma full_outcome_wf info :
  full_outcome w filename = Ok (Some info) -> full_wf info.
Proof.
  unfold full_outcome; unfold_res.
  destruct (tool_lines w filename "-text") as [openssl_out|]; simpl; [|discriminate].
  destruct (full_lines_total openssl_out) as (results & -> & Hwf); simpl.
  unfold Py.or_none; case_bool_decide; intros [= <-]; assumption.
Qed.

(** The keys that the orchestrator sets itself are out of the reach of the
    full-text extractor. *)
Lemma extracted_own modified dates subject issuer purpose ocsp_uri additional_info key :
  full_outcome w filename = Ok additional_info ->
  key ∈ ["modified"; "dates"; "subject"; "issuer"; "purpose"; "ocsp_uri"] ->
  extracted modified dates subject issuer purpose ocsp_uri additional_info !! key
  = extracted modified dates subject issuer purpose ocsp_uri None !! key.
Proof.
  intros Hfull Hkey; destruct additional_info as [info|]; [|reflexivity].
  unfold extracted at 1; apply lookup_union_r.
  destruct (info !! key) as [v|] eqn:E; [exfalso|reflexivity].
  destruct (full_outcome_wf _ Hfull _ _ E) as [[-> _]|[Hin _]];
    unfold text_keys in *; set_solver.
Qed.


Lemma extracted_names modified dates subject issuer purpose ocsp_uri additional_info :
  full_outcome w filename = Ok additional_info ->
  match gathered_names w filename with
  | Some names =>
      extracted modified dates subject issuer purpose ocsp_uri additional_info
        !! "names" = Some (VList names) /\ names <> []
  | None =>
      extracted modified dates subject issuer purpose ocsp_uri additional_info
        !! "names" = None
  end.
Proof.
  intros Hfull; unfold gathered_names.
  rewrite certificate_full_run; simpl; rewrite Hfull.
  destruct additional_info as [info|]; [|reflexivity].
  pose proof (full_outcome_wf _ Hfull) as Hwf.
  unfold extracted.
  destruct (info !! "names") as [v|] eqn:E.
  - destruct (Hwf _ _ E) as [(_ & names & -> & Hne)|[Hin _]];
      [|now apply names_not_text_key in Hin].
    split; [|assumption].
    now rewrite (lookup_union_Some_l _ _ _ _ E).
  - now rewrite lookup_union_r.
Qed.
End Extracted.

(** ** The orchestrator *)


Section Orchestrator.
Variable w : World.
Variable filename : string.

Lemma extracted_modified modified dates subject issuer purpose ocsp_uri :
  extracted modified dates subject issuer purpose ocsp_uri None !! "modified"
  = Some (VInt modified).
Proof. reflexivity. Qed.

Lemma extracted_subject modified dates subject issuer purpose ocsp_uri :
  extracted modified dates subject issuer purpose ocsp_uri None !! "subject"
  = Some (Py.of_dict subject).
Proof. reflexivity. Qed.

Lemma extracted_issuer modified dates subject issuer purpose ocsp_uri :
  extracted modified dates subject issuer purpose ocsp_uri None !! "issuer"
  = Some (Py.of_dict issuer).
Proof. reflexivity. Qed.

Lemma extracted_purpose modified dates subject issuer purpose ocsp_uri :
  extracted modified dates subject issuer purpose ocsp_uri None !! "purpose"
  = Some (Py.of_dict purpose).
Proof. reflexivity. Qed.

(** A result is returned only by an analysis that ran to its end. *)
Lemma ssl_analysis_some t results t' :
  ssl_analysis w filename t = (Ok (Some results), t') ->
  open_file w filename = None /\
  exists t0 t1, analyze w filename t0 = (Ok results, t1).
Proof.
  destruct (open_file w filename) as [e|] eqn:Hopen.
  - destruct (is_IOError e) eqn:He.
    + destruct e; try discriminate He.
      rewrite ssl_analysis_unreadable by assumption; discriminate.
    + rewrite (ssl_analysis_open_raises _ _ _ e) by assumption; discriminate.
  - rewrite ssl_analysis_readable by assumption.
    destruct (analyze w filename _) as [[results'|e] t1] eqn:Ha; [|discriminate].
    intros [= <- <-]; eauto.
Qed.

(** A readable file never makes the orchestrator raise. *)
Lemma ssl_analysis_readable_returns t :
  open_file w filename = None ->
  exists result t',
    ssl_analysis w filename t = (Ok result, t') /\
    (result = None -> exists e, failed filename e ∈ t') /\
    (forall results, result = Some results ->
                     exists t0 t1, analyze w filename t0 = (Ok results, t1)).
Proof.
  intros Hopen; rewrite ssl_analysis_readable by assumption.
  destruct (analyze w filename _) as [[results|e] t1] eqn:Ha.
  - eexists _, _; split; [reflexivity|]; split; [discriminate|].
    intros ? [= <-]; eauto.
  - eexists _, _; split; [reflexivity|]; split; [|discriminate].
    intros _; exists e; set_solver.
Qed.

(** Every key that the extraction stage set is still there in the end. *)
Lemma analyze_own t results t' key :
  analyze w filename t = (Ok results, t') ->
  key ∈ ["modified"; "subject"; "issuer"; "purpose"] ->
  exists modified dates subject issuer purpose ocsp_uri,
    dn_outcome w filename "-subject" = Ok subject /\
    dn_outcome w filename "-issuer" = Ok issuer /\
    purpose_outcome w filename = Ok purpose /\
    results !! key
    = extracted modified dates subject issuer purpose ocsp_uri None !! key.
Proof.
  intros Ha Hkey.
  apply analyze_ok in Ha
    as (modified & dates & subject & issuer & purpose & ocsp_uri & info & coerced
        & _ & _ & Hs & Hi & Hp & _ & Hfull & Hc & Hr).
  exists modified, dates, subject, issuer, purpose, ocsp_uri.
  repeat split; try assumption.
  rewrite (reconcile_names_other _ _ key Hr) by set_solver.
  rewrite (coerce_length_other _ _ key Hc) by set_solver.
  apply (extracted_own w filename); [assumption|set_solver].
Qed.
End Orchestrator.

(** C1, as amended: whatever the command runner and the file system do, as
    long as opening the file either succeeds or fails with [IOError] (the one
    failure that the readability check handles), [ssl_analysis] does not
    raise.  It returns a record, which then holds the modification time, or
    [None], and then the log holds the reason: the file could not be read, or
    the analysis failed with a named exception. *)
Theorem ssl_analysis_returns w filename t :
  open_file w filename = None \/ open_file w filename = Some IOError ->
  exists result t',
    ssl_analysis w filename t = (Ok result, t') /\
    match result with
    | Some results => is_Some (results !! "modified")
    | None => unreadable filename ∈ t' \/ exists e, failed filename e ∈ t'
    end.
Proof.
  intros [Hopen|Hopen].
  - destruct (ssl_analysis_readable_returns w filename t Hopen)
      as (result & t' & E & Hnone & Hsome).
    exists result, t'; split; [assumption|].
    destruct result as [results|]; [|right; now apply Hnone].
    destruct (Hsome results eq_refl) as (t0 & t1 & Ha).
    destruct (analyze_own w filename _ _ _ "modified" Ha)
      as (modified & dates & subject & issuer & purpose & ocsp_uri & _ & _ & _ & ->);
      [set_solver|].
    rewrite extracted_modified; eauto.
  - rewrite ssl_analysis_unreadable by assumption.
    eexists _, _; split; [reflexivity|]; left; set_solver.
Qed.

Lemma ssl_analysis_returns_witness :
  exists result t',
    ssl_analysis Sample.world Sample.filename [] = (Ok result, t') /\
    match result with
    | Some results => is_Some (results !! "modified")
    | None =>
        unreadable Sample.filename ∈ t' \/ exists e, failed Sample.filename e ∈ t'
    end.
Proof.
  apply (ssl_analysis_returns Sample.world Sample.filename []).
  left; reflexivity.
Defined.

(** C1, as stated, fails: on a path with a NUL byte [open] raises a
    [TypeError], which [except IOError] lets through to the caller. *)
Lemma ssl_analysis_raises_TypeError :
  ssl_analysis Sample.world_checked Sample.nul_path []
  = (Raise TypeError, [found Sample.nul_path]) /\
  ~ exists result t',
      ssl_analysis Sample.world_checked Sample.nul_path [] = (Ok result, t').
Proof.
  assert (E : ssl_analysis Sample.world_checked Sample.nul_path []
              = (Raise TypeError, [found Sample.nul_path]))
    by (apply ssl_analysis_open_raises; reflexivity).
  split; [exact E|].
  intros (result & t' & H); rewrite E in H; discriminate.
Qed.

(** C6, as amended: when the readability check fails, no command is handed
    to the runner, whatever the failure of [open].  When the failure is an
    [IOError], the one that the check catches, [ssl_analysis] logs it and
    returns [None]; any other exception of [open] is raised to the caller. *)
Theorem failed_open_runs_no_tool w filename t e :
  open_file w filename = Some e ->
  exists outcome t',
    ssl_analysis w filename t = (outcome, t') /\
    calls t' = calls t /\
    (e = IOError ->
     outcome = Ok None /\
     t' = (t ++ [found filename; unreadable filename])%list) /\
    (e <> IOError -> outcome = Raise e).
Proof.
  intros Hopen; destruct (is_IOError e) eqn:He.
  - assert (e = IOError) as -> by (destruct e; try discriminate He; reflexivity).
    rewrite ssl_analysis_unreadable by assumption.
    eexists _, _; split; [reflexivity|].
    rewrite <- app_assoc; split; [|split; [now split|congruence]].
    unfold calls; rewrite filter_app; simpl.
    apply app_nil_r.
  - rewrite (ssl_analysis_open_raises _ _ _ e) by assumption.
    eexists _, _; split; [reflexivity|]; split; [|split].
    + unfold calls; rewrite filter_app; simpl.
      apply app_nil_r.
    + intros ->; discriminate He.
    + intros _; reflexivity.
Qed.

Lemma failed_open_runs_no_tool_witness :
  exists outcome t',
    ssl_analysis Sample.world_unreadable Sample.filename [] = (outcome, t') /\
    calls t' = calls [] /\
    (IOError = IOError ->
     outcome = Ok None /\
     t' = [found Sample.filename; unreadable Sample.filename]) /\
    (IOError <> IOError -> outcome = Raise IOError).
Proof.
  apply (failed_open_runs_no_tool Sample.world_unreadable Sample.filename [] IOError).
  reflexivity.
Defined.

(** C6, as stated, fails: a path with a NUL byte cannot be opened, the
    readability check fails with a [TypeError], and [ssl_analysis] returns no
    [None]: it raises.  No command is run. *)
Lemma failed_open_without_None :
  open_file Sample.world_checked Sample.nul_path = Some TypeError /\
  calls (snd (ssl_analysis Sample.world_checked Sample.nul_path [])) = [] /\
  ~ exists t', ssl_analysis Sample.world_checked Sample.nul_path [] = (Ok None, t').
Proof.
  assert (Hopen : open_file Sample.world_checked Sample.nul_path = Some TypeError)
    by reflexivity.
  pose proof (ssl_analysis_open_raises Sample.world_checked Sample.nul_path []
                TypeError Hopen eq_refl) as E.
  split; [exact Hopen|]; rewrite E; split; [reflexivity|].
  intros (t' & H); discriminate H.
Qed.

(** C5: when the subject extractor recovers no common name (no subject at
    all, or a subject without that key), the reconciliation of the names
    raises, and the analysis of a readable file returns [None]. *)
Theorem no_common_name_no_result w filename t subject :
  open_file w filename = None ->
  fst (certificate_subject w filename []) = Ok subject ->
  subject ≫= (fun d => d !! "common_name") = None ->
  (forall results,
      results !! "subject" = Some (Py.of_dict subject) ->
      exists e, reconcile_names results = Raise e) /\
  exists t', ssl_analysis w filename t = (Ok None, t').
Proof.
  intros Hopen Hsubject Hcn.
  rewrite certificate_subject_run in Hsubject; simpl in Hsubject.
  split.
  - intros results Hs.
    destruct (reconcile_names_raises results subject Hs Hcn) as (e & He & _); eauto.
  - destruct (ssl_analysis_readable_returns w filename t Hopen)
      as (result & t' & E & _ & Hsome).
    exists t'; rewrite E; destruct result as [results|]; [exfalso|reflexivity].
    destruct (Hsome results eq_refl) as (t0 & t1 & Ha).
    pose proof Ha as Hown.
    apply analyze_own with (key := "subject") in Hown
      as (modified & dates & subject' & issuer & purpose & ocsp_uri & Hs & _ & _ & Hl);
      [|set_solver].
    rewrite extracted_subject in Hl.
    apply analyze_ok in Ha
      as (? & ? & ? & ? & ? & ? & ? & coerced & _ & _ & _ & _ & _ & _ & _ & Hc & Hr).
    assert (subject' = subject) as -> by congruence.
    rewrite (reconcile_names_other _ _ "subject" Hr) in Hl by set_solver.
    destruct (reconcile_names_raises coerced subject Hl Hcn) as (e & He & _).
    congruence.
Qed.

Lemma no_common_name_no_result_witness :
  exists t',
    ssl_analysis
      (Sample.world_with ["subject= /C=US/O=Example, Inc."; ""]
         Sample.ocsp_out Sample.text_out)
      Sample.filename [] = (Ok None, t').
Proof.
  apply (proj2
           (no_common_name_no_result
              (Sample.world_with ["subject= /C=US/O=Example, Inc."; ""]
                 Sample.ocsp_out Sample.text_out)
              Sample.filename []
              (Some {[ "country" := SStr "US";
                       "organization" := SStr "Example, Inc." ]})
              ltac:(reflexivity)
              ltac:(by_evaluation)
              ltac:(by_evaluation))).
Defined.

(** C7: in every result that [ssl_analysis] returns, the subject has a common
    name and [names] is a non-empty list that holds it: the list that the
    full-text extractor gathered when the common name is already in it, that
    list with the common name appended when it is not, and the common name
    alone when no list was gathered. *)
Theorem names_hold_common_name w filename t results t' :
  ssl_analysis w filename t = (Ok (Some results), t') ->
  exists subject common_name names,
    results !! "subject" = Some (VDict subject) /\
    subject !! "common_name" = Some common_name /\
    results !! "names" = Some (VList names) /\
    names <> [] /\
    common_name ∈ names /\
    names = match gathered_names w filename with
            | Some gathered =>
                if bool_decide (common_name ∈ gathered) then gathered
                else (gathered ++ [common_name])%list
            | None => [common_name]
            end.
Proof.
  intros H; apply ssl_analysis_some in H as (_ & t0 & t1 & Ha).
  apply analyze_ok in Ha
    as (modified & dates & subject0 & issuer & purpose & ocsp_uri & info & coerced
        & _ & _ & _ & _ & _ & _ & Hfull & Hc & Hr).
  pose proof (extracted_names w filename modified dates subject0 issuer purpose
                ocsp_uri info Hfull) as Hg.
  rewrite <- (coerce_length_other _ _ "names" Hc) in Hg by discriminate.
  destruct (reconcile_names_ok coerced results (gathered_names w filename) Hr)
    as (common_name & Hcn & Hnames).
  { destruct (gathered_names w filename); [split|]; apply Hg. }
  apply subject_common_name_ok in Hcn as (subject & Hs & Hcn).
  rewrite <- (reconcile_names_other _ _ "subject" Hr) in Hs by discriminate.
  exists subject, common_name, (reconciled_names (gathered_names w filename) common_name).
  pose proof (reconciled_names_elem (gathered_names w filename) common_name) as Hin.
  repeat split; try assumption.
  intros Hnil; rewrite Hnil in Hin; inversion Hin.
Qed.

Lemma names_hold_common_name_witness :
  exists subject common_name names,
    returned (ssl_analysis Sample.world Sample.filename []) !! "subject"
    = Some (VDict subject) /\
    subject !! "common_name" = Some common_name /\
    returned (ssl_analysis Sample.world Sample.filename []) !! "names"
    = Some (VList names) /\
    names <> [] /\
    common_name ∈ names /\
    names = match gathered_names Sample.world Sample.filename with
            | Some gathered =>
                if bool_decide (common_name ∈ gathered) then gathered
                else (gathered ++ [common_name])%list
            | None => [common_name]
            end.
Proof.
  apply (names_hold_common_name Sample.world Sample.filename []
           (returned (ssl_analysis Sample.world Sample.filename []))
           (snd (ssl_analysis Sample.world Sample.filename []))).
  by_evaluation.
Defined.

(** ** Sub-maps *)

Lemma or_none_nonempty {A : Type} (d d' : gmap string A) :
  Py.or_none d = Some d' -> d' <> ∅.
Proof. unfold Py.or_none; case_bool_decide; congruence. Qed.

Lemma dn_outcome_nonempty w filename flag d :
  dn_outcome w filename flag = Ok (Some d) -> d <> ∅.
Proof.
  unfold dn_outcome; unfold_res.
  destruct (tool_lines w filename flag); [|discriminate].
  intros [= H]; exact (or_none_nonempty _ _ H).
Qed.

Lemma purpose_outcome_nonempty w filename d :
  purpose_outcome w filename = Ok (Some d) -> d <> ∅.
Proof.
  unfold purpose_outcome; unfold_res.
  destruct (tool_lines w filename "-purpose"); [|discriminate].
  intros [= H]; exact (or_none_nonempty _ _ H).
Qed.

(** C8: the extractors of the subject, of the issuer and of the purposes
    return a non-empty dictionary or [None], and so in a result of
    [ssl_analysis] none of the three entries is an empty dictionary. *)
Theorem sub_maps_never_empty w filename :
  (forall t d t', certificate_subject w filename t = (Ok (Some d), t') -> d <> ∅) /\
  (forall t d t', certificate_issuer w filename t = (Ok (Some d), t') -> d <> ∅) /\
  (forall t d t', certificate_purpose w filename t = (Ok (Some d), t') -> d <> ∅) /\
  (forall t results t' key,
      ssl_analysis w filename t = (Ok (Some results), t') ->
      key ∈ ["subject"; "issuer"; "purpose"] ->
      results !! key <> Some (VDict ∅)).
Proof.
  repeat split.
  - intros t d t'; rewrite certificate_subject_run; intros [= H _].
    exact (dn_outcome_nonempty _ _ _ _ H).
  - intros t d t'; rewrite certificate_issuer_run; intros [= H _].
    exact (dn_outcome_nonempty _ _ _ _ H).
  - intros t d t'; rewrite certificate_purpose_run; intros [= H _].
    exact (purpose_outcome_nonempty _ _ _ H).
  - intros t results t' key H Hkey.
    apply ssl_analysis_some in H as (_ & t0 & t1 & Ha).
    apply analyze_own with (key := key) in Ha
      as (modified & dates & subject & issuer & purpose & ocsp_uri
          & Hs & Hi & Hp & ->); [|set_solver].
    repeat (apply elem_of_cons in Hkey as [->|Hkey]); [| | |inversion Hkey].
    + rewrite extracted_subject; destruct subject as [d|]; [|discriminate].
      intros [= ->]; now apply dn_outcome_nonempty in Hs.
    + rewrite extracted_issuer; destruct issuer as [d|]; [|discriminate].
      intros [= ->]; now apply dn_outcome_nonempty in Hi.
    + rewrite extracted_purpose; destruct purpose as [d|]; [|discriminate].
      intros [= ->]; now apply purpose_outcome_nonempty in Hp.
Qed.

Lemma sub_maps_never_empty_witness :
  returned (ssl_analysis Sample.world Sample.filename []) !! "subject"
  <> Some (VDict ∅).
Proof.
  apply (proj2 (proj2 (proj2 (sub_maps_never_empty Sample.world Sample.filename)))
           [] (returned (ssl_analysis Sample.world Sample.filename []))
           (snd (ssl_analysis Sample.world Sample.filename [])) "subject").
  - by_evaluation.
  - apply list_elem_of_here.
Defined.

(** ** The validity dates *)

Lemma foldM_raises {A B : Type} (f : B -> A -> res B) l x :
  x ∈ l ->
  (forall acc, exists e, f acc x = Raise e) ->
  forall acc, exists e, Res.foldM f l acc = Raise e.
Proof.
  intros Hin Hx; induction l as [|y l IH]; intros acc; [inversion Hin|].
  simpl; apply elem_of_cons in Hin as [<-|Hin].
  - destruct (Hx acc) as (e & ->); simpl; eauto.
  - destruct (f acc y) as [acc'|e]; simpl; [apply IH; assumption|eauto].
Qed.

(** A non-empty line that does not hold exactly one [=] cannot be unpacked
    into a key and a value. *)
Lemma dates_line_unpack w results line :
  line <> "" ->
  Str.count "=" line <> 1%nat ->
  dates_line w results line = Raise ValueError.
Proof.
  intros Hne Hcount; unfold dates_line.
  destruct line as [|c line]; [congruence|]; simpl Str.truthy; cbv iota.
  pose proof (split_char_length "=" (String c line)) as Hlen.
  destruct (Str.split "=" (String c line)) as [|key [|value [|other pieces]]];
    try reflexivity.
  exfalso; apply Hcount.
  change (S (S O) = S (Str.count "=" (String c line))) in Hlen.
  now injection Hlen.
Qed.

(** C10: [certificate_dates] unpacks every non-empty line into two parts
    around [=] before it looks at the key.  A non-empty line that does not
    hold exactly one [=] makes the unpacking raise [ValueError]; the exception
    leaves [certificate_dates], and [ssl_analysis] returns [None]: the whole
    analysis is lost, not only the validity. *)
Theorem dates_line_without_one_equals w filename t openssl_out err line :
  open_file w filename = None ->
  subp_call w (openssl_x509 filename "-dates") = Ok (openssl_out, err) ->
  line ∈ openssl_out ->
  line <> "" ->
  Str.count "=" line <> 1%nat ->
  (forall results, dates_line w results line = Raise ValueError) /\
  (exists e t', certificate_dates w filename t = (Raise e, t')) /\
  (exists t', ssl_analysis w filename t = (Ok None, t')).
Proof.
  intros Hopen Hcall Hin Hne Hcount.
  assert (Hline : forall results, dates_line w results line = Raise ValueError)
    by (intros; now apply dates_line_unpack).
  assert (Hdates : exists e, dates_outcome w filename = Raise e).
  { unfold dates_outcome, tool_lines; rewrite Hcall; unfold_res.
    destruct (foldM_raises (dates_line w) openssl_out line Hin) with (acc := ∅ : gmap string scalar)
      as (e & ->); eauto. }
  destruct Hdates as (e & Hdates).
  split; [assumption|split].
  - rewrite certificate_dates_run, Hdates; eauto.
  - destruct (ssl_analysis_readable_returns w filename t Hopen)
      as (result & t' & E & _ & Hsome).
    exists t'; rewrite E; destruct result as [results|]; [exfalso|reflexivity].
    destruct (Hsome results eq_refl) as (t0 & t1 & Ha).
    apply analyze_ok in Ha as (? & dates & ? & ? & ? & ? & ? & ? & _ & Hd & _).
    congruence.
Qed.

Lemma dates_line_without_one_equals_witness :
  exists t',
    ssl_analysis
      {| open_file := fun _ => None;
         getmtime := fun _ => Ok 1600000000;
         subp_call := fun _ => Ok (["notBefore=Jan  1 00:00:00 2020 GMT";
                                    "unable to load certificate"; ""], [""]);
         strptime_epoch := Sample.epoch |}
      Sample.filename [] = (Ok None, t').
Proof.
  eapply proj2, proj2,
    (dates_line_without_one_equals _ _ _ _ _ "unable to load certificate").
  - reflexivity.
  - reflexivity.
  - apply list_elem_of_further, list_elem_of_here.
  - discriminate.
  - vm_compute; discriminate.
Defined.

(** ** The OCSP responder *)

(** With at least one line of output, the first line is the result when it is
    not empty, and there is no result when it is. *)
Lemma certificate_ocsp_uri_first_line w filename t first rest err :
  subp_call w (openssl_x509 filename "-ocsp_uri") = Ok (first :: rest, err) ->
  fst (certificate_ocsp_uri w filename t)
  = Ok (if Str.truthy first then Some first else None).
Proof.
  intros Hcall; rewrite certificate_ocsp_uri_run; simpl.
  unfold ocsp_uri_outcome, tool_lines; now rewrite Hcall.
Qed.

(** C4, on a runner that returns no line at all for the OCSP query: the
    index [openssl_out[0]] raises [IndexError], the exception leaves
    [certificate_ocsp_uri], and the analysis of an otherwise fine certificate
    returns [None]; with one empty line instead the analysis returns a
    record whose [ocsp_uri] is [None]. *)
Theorem ocsp_uri_of_no_line :
  subp_call (Sample.world_with Sample.subject_out [] Sample.text_out)
    (openssl_x509 Sample.filename "-ocsp_uri") = Ok ([], [""]) /\
  certificate_ocsp_uri (Sample.world_with Sample.subject_out [] Sample.text_out)
    Sample.filename []
  = (Raise IndexError, [Call (openssl_x509 Sample.filename "-ocsp_uri")]) /\
  fst (ssl_analysis (Sample.world_with Sample.subject_out [] Sample.text_out)
         Sample.filename []) = Ok None /\
  returned (ssl_analysis (Sample.world_with Sample.subject_out [""] Sample.text_out)
              Sample.filename []) !! "ocsp_uri" = Some VNone.
Proof.
  split; [|split; [|split]]; by_evaluation.
Qed.

(** ** Names across the lines of the dump *)

(** C2, on a line that the signature pattern matches and that holds a DNS
    token: [continue] goes to the next pattern, not to the next line, so the
    two patterns that do not match still search the line, and its token ends
    up in [names]. *)
Theorem algorithm_line_still_searched :
  (exists regex,
      regex ∈ ssl_text_regexs /\
      match_ regex "    Signature Algorithm: DNS:example.com"
      = Some {[ "signature_algorithm" := "DNS:example.com" ]}) /\
  full_line ∅ "    Signature Algorithm: DNS:example.com"
  = Ok {[ "signature_algorithm" := VStr "DNS:example.com";
          "names" := VList [SStr "example.com"] ]} /\
  fst (certificate_full
         (Sample.world_with Sample.subject_out Sample.ocsp_out
            ["    Signature Algorithm: DNS:example.com"; ""])
         Sample.filename [])
  = Ok (Some {[ "signature_algorithm" := VStr "DNS:example.com";
                "names" := VList [SStr "example.com"] ]}).
Proof.
  split; [|split]; [|by_evaluation..].
  exists (Star dot +++ Lit "Signature Algorithm: "
            +++ Named "signature_algorithm" (Star dot)).
  split; [|by_evaluation].
  unfold ssl_text_regexs; do 2 apply list_elem_of_further; apply list_elem_of_here.
Qed.

(** C3, as stated, fails: with a token on each of two lines, the names of the
    second line replace those of the first, which is not in the list. *)
Lemma names_not_accumulated :
  findall ssl_dns_regex "    DNS:a.example.com" = ["DNS:a.example.com"] /\
  after_colon "DNS:a.example.com" = Ok (SStr "a.example.com") /\
  fst (certificate_full
         (Sample.world_with Sample.subject_out Sample.ocsp_out
            ["    DNS:a.example.com"; "    DNS:b.example.com"; ""])
         Sample.filename [])
  = Ok (Some {[ "names" := VList [SStr "b.example.com"] ]}) /\
  SStr "a.example.com" ∉ [SStr "b.example.com"].
Proof.
  split; [|split; [|split]]; try (by_evaluation).
  intros Hin; apply list_elem_of_singleton in Hin; discriminate.
Qed.

(** C3, as amended: the names are not accumulated across the lines; each line
    whose tokens are collected replaces the list.  When the last line of the
    dump that holds DNS tokens is matched by no algorithm pattern, the names
    are the text after the colon of every token of that line, in their
    order, duplicates included. *)
Theorem names_of_last_dns_line w filename t pre line post err :
  subp_call w (openssl_x509 filename "-text") = Ok ((pre ++ line :: post)%list, err) ->
  findall ssl_dns_regex line <> [] ->
  (forall regex, regex ∈ ssl_text_regexs -> match_ regex line = None) ->
  (forall l, l ∈ post -> findall ssl_dns_regex l = []) ->
  exists info names t',
    certificate_full w filename t = (Ok (Some info), t') /\
    info !! "names" = Some (VList names) /\
    Forall2 (fun x name => after_colon x = Ok name) (findall ssl_dns_regex line) names.
Proof.
  intros Hcall Hdns Hnone Hpost.
  destruct (full_lines_total pre) as (before & Hpre & _).
  destruct (full_line_dns line before Hdns Hnone) as (names & Hnames & Hline).
  destruct (foldM_invariant
              (fun r : gmap string value => r !! "names" = Some (VList names))
              full_line post (<["names" := VList names]> before))
    as (results & Hafter & Hkept).
  { apply lookup_insert_eq. }
  { intros b l Hl Hb.
    destruct (full_line_total l b) as (b' & E & _ & Hsame).
    exists b'; split; [assumption|].
    now rewrite (Hsame (Hpost l Hl)). }
  assert (Hall : Res.foldM full_line (pre ++ line :: post) ∅ = Ok results).
  { rewrite foldM_app, Hpre; simpl; rewrite Hline; simpl; exact Hafter. }
  exists results, names; eexists; repeat split; [|assumption|].
  - rewrite certificate_full_run.
    unfold full_outcome, tool_lines; rewrite Hcall; unfold_res; rewrite Hall.
    unfold Py.or_none; case_bool_decide as Hempty; [|reflexivity].
    rewrite Hempty, lookup_empty in Hkept; discriminate.
  - destruct (dns_names_total line) as (names' & E & Hforall).
    congruence.
Qed.

Lemma names_of_last_dns_line_witness :
  exists info names t',
    certificate_full Sample.world Sample.filename [] = (Ok (Some info), t') /\
    info !! "names" = Some (VList names) /\
    Forall2 (fun x name => after_colon x = Ok name)
      (findall ssl_dns_regex "                DNS:example.com, DNS:www.example.com")
      names.
Proof.
  apply (names_of_last_dns_line Sample.world Sample.filename []
           (firstn 8 Sample.text_out)
           "                DNS:example.com, DNS:www.example.com" [""] [""]).
  - reflexivity.
  - vm_compute; discriminate.
  - intros regex Hin; unfold ssl_text_regexs in Hin.
    repeat (apply elem_of_cons in Hin as [->|Hin]; [vm_compute; reflexivity|]).
    inversion Hin.
  - intros l Hl; apply list_elem_of_singleton in Hl as ->; reflexivity.
Defined.

(** * Further properties of the extractors *)

(** ** Cutting and joining *)

Lemma startswith_app sep s :
  Str.startswith sep s = true -> exists rest, s = sep ++ rest.
Proof.
  revert s; induction sep as [|a sep IH]; intros s; simpl.
  - intros _; exists s; reflexivity.
  - destruct s as [|c s]; [discriminate|].
    destruct (Ascii.eqb_spec a c) as [->|]; [|discriminate].
    intros H; destruct (IH _ H) as (rest & ->); exists rest; reflexivity.
Qed.

Lemma split_go_skip sep x rest :
  Str.split_go sep (String.length x) (x ++ rest) = Str.split_go sep O rest.
Proof.
  induction x as [|c x IH]; [reflexivity|exact IH].
Qed.

Lemma length_app_string x rest :
  String.length (x ++ rest) = (String.length x + String.length rest)%nat.
Proof. induction x as [|c x IH]; [reflexivity|]; cbn; now rewrite <- IH. Qed.

Lemma join_with_cons sep c piece pieces :
  join_with sep (String c piece :: pieces) = String c (join_with sep (piece :: pieces)).
Proof. destruct pieces; reflexivity. Qed.

(** Joining the pieces of a string with the separator gives the string
    back. *)
Lemma join_split a sep s :
  join_with (String a sep) (Str.split (String a sep) s) = s.
Proof.
  unfold Str.split.
  remember (String.length s) as n eqn:Hn.
  assert (Hle : (String.length s <= n)%nat) by lia; clear Hn.
  revert s Hle; induction n as [|n IH]; intros s Hle.
  - destruct s; [reflexivity|simpl in Hle; lia].
  - destruct s as [|c s]; [reflexivity|].
    cbn [Str.split_go].
    destruct (Str.startswith (String a sep) (String c s)) eqn:Hstart.
    + apply startswith_app in Hstart as (rest & Hs).
      injection Hs as -> ->.
      cbn [String.length Nat.pred].
      rewrite split_go_skip.
      assert (Hrest : (String.length rest <= n)%nat).
      { cbn [String.length] in Hle; rewrite length_app_string in Hle; lia. }
      specialize (IH rest Hrest).
      destruct (split_go_cons (String a sep) O rest) as (piece & pieces & E).
      rewrite E in *.
      change (String a sep ++ join_with (String a sep) (piece :: pieces)
              = String a (sep ++ rest)).
      now rewrite IH.
    + assert (Hs : (String.length s <= n)%nat) by (simpl in Hle; lia).
      specialize (IH s Hs).
      destruct (split_go_cons (String a sep) O s) as (piece & pieces & E).
      rewrite E in *.
      now rewrite join_with_cons, IH.
Qed.

(** A string without the separator is one piece. *)
Lemma split_without sep s :
  Str.contains sep s = false -> Str.split sep s = [s].
Proof.
  unfold Str.split; induction s as [|c s IH]; [reflexivity|].
  cbn [Str.contains Str.split_go]; intros H.
  apply orb_false_iff in H as [-> H].
  now rewrite (IH H).
Qed.

(** ** What a repetition consumes *)

Lemma app_assoc_string x y z : (x ++ y) ++ z = x ++ (y ++ z).
Proof.
  induction x as [|c x IH]; [reflexivity|].
  change (String c ((x ++ y) ++ z) = String c (x ++ (y ++ z))); now rewrite IH.
Qed.

Lemma substring_app x rest : String.substring 0 (String.length x) (x ++ rest) = x.
Proof.
  induction x as [|c x IH]; [now destruct rest|].
  change (String c (String.substring 0 (String.length x) (x ++ rest)) = String c x).
  now rewrite IH.
Qed.

Lemma consumed_app x rest : consumed (x ++ rest) rest = x.
Proof.
  unfold consumed; rewrite length_app_string.
  replace (String.length x + String.length rest - String.length rest)%nat
    with (String.length x) by lia.
  apply substring_app.
Qed.

Section Consumption.
Context {R : Type}.
Implicit Types (k : string -> option R) (x : R).

(** A greedy repetition goes over characters of its class only, and hands the
    rest of the text to what follows. *)
Lemma star_k_consumes cls s k x :
  star_k cls s k = Some x ->
  exists taken rest, s = taken ++ rest /\ all_of cls taken = true /\ k rest = Some x.
Proof.
  induction s as [|c s IH]; simpl.
  - intros H; exists "", ""; auto.
  - destruct (cls c) eqn:Hc; [|intros H; exists "", (String c s); auto].
    destruct (star_k cls s k) as [y|] eqn:E; [|intros H; exists "", (String c s); auto].
    intros [= ->]; destruct (IH eq_refl) as (taken & rest & -> & Hall & Hk).
    exists (String c taken), rest; repeat split; [|assumption].
    simpl; now rewrite Hc.
Qed.

Lemma plus_k_consumes cls s k x :
  plus_k cls s k = Some x ->
  exists c taken rest,
    s = String c taken ++ rest /\ all_of cls (String c taken) = true /\ k rest = Some x.
Proof.
  destruct s as [|c s]; simpl; [discriminate|].
  destruct (cls c) eqn:Hc; [|discriminate].
  intros H; apply star_k_consumes in H as (taken & rest & -> & Hall & Hk).
  exists c, taken, rest; repeat split; [|assumption].
  simpl; now rewrite Hc.
Qed.
End Consumption.

(** ** The tokens of the alternative names *)

(** A match of the DNS pattern is the prefix [DNS:] and a non-empty name made
    of word characters, white space, hyphens and periods. *)
Lemma dns_match_shape s n :
  match_length ssl_dns_regex s = Some n ->
  exists c name,
    String.substring 0 n s = "DNS:" ++ String c name /\
    all_of (any_of [word; space; chr "-"; chr "."]) (String c name) = true.
Proof.
  unfold match_length, ssl_dns_regex; cbn [match_k].
  intros H; apply lit_k_inv in H as (rest & -> & H).
  apply plus_k_consumes in H as (c & name & rest' & -> & Hall & [= <-]).
  exists c, name; split; [|assumption].
  rewrite <- app_assoc_string.
  apply (consumed_app ("DNS:" ++ String c name) rest').
Qed.

Lemma findall_dns_shape s :
  forall skip x,
    x ∈ findall_go ssl_dns_regex skip s ->
    exists c name,
      x = "DNS:" ++ String c name /\
      all_of (any_of [word; space; chr "-"; chr "."]) (String c name) = true.
Proof.
  induction s as [|c s IH]; intros skip x; simpl.
  - intros H; inversion H.
  - destruct skip as [|k]; [|apply IH].
    destruct (match_length ssl_dns_regex (String c s)) as [n|] eqn:E; [|apply IH].
    intros [->|H]%elem_of_cons; [|eapply IH, H].
    apply dns_match_shape in E as (c' & name & E & Hall); eauto.
Qed.

(** A name of that shape holds no colon. *)
Lemma dns_name_no_colon name :
  all_of (any_of [word; space; chr "-"; chr "."]) name = true ->
  Str.contains ":" name = false.
Proof.
  induction name as [|c name IH]; [reflexivity|].
  cbn [all_of Str.contains]; intros [Hc Hall]%andb_true_iff.
  rewrite (IH Hall), orb_false_r.
  cbn [Str.startswith].
  destruct (Ascii.eqb_spec ":" c) as [<-|]; [discriminate Hc|reflexivity].
Qed.

Lemma after_colon_name name :
  Str.contains ":" name = false ->
  after_colon ("DNS:" ++ name) = Ok (SStr name).
Proof.
  intros Hname; unfold after_colon.
  assert (E : Str.split ":" ("DNS:" ++ name) = "DNS" :: Str.split ":" name).
  { unfold Str.split; cbv [String.append]; simpl.
    destruct (split_go_cons ":" O name) as (piece & pieces & ->); reflexivity. }
  now rewrite E, (split_without _ _ Hname).
Qed.

(** X1: whatever the line of the dump, the names collected from it are its
    DNS tokens without their [DNS:] prefix, in order: the collection never
    raises, and every name is a non-empty run of word characters, white
    space, hyphens and periods. *)
Theorem dns_names_are_token_names line :
  exists names,
    dns_names (findall ssl_dns_regex line) = Ok names /\
    Forall2
      (fun token entry =>
         exists name,
           token = "DNS:" ++ name /\ entry = SStr name /\ name <> "" /\
           all_of (any_of [word; space; chr "-"; chr "."]) name = true)
      (findall ssl_dns_regex line) names.
Proof.
  unfold dns_names, findall.
  pose proof (findall_dns_shape line O) as Hall.
  induction (findall_go ssl_dns_regex 0 line) as [|x matches IH].
  - exists []; split; [reflexivity|constructor].
  - destruct (Hall x) as (c & name & -> & Hname); [left|].
    destruct IH as (names & Em & Hnames); [intros; apply Hall; now right|].
    exists (SStr (String c name) :: names); split.
    + cbn [Res.mapM].
      rewrite (after_colon_name _ (dns_name_no_colon _ Hname)); simpl.
      now rewrite Em.
    + constructor; [|assumption].
      exists (String c name); repeat split; [discriminate|assumption].
Qed.

(** ** The digits of the key length *)

Lemma digit_not_space c : digit c = true -> Str.is_space c = false.
Proof.
  unfold digit, between, Str.is_space.
  intros [H1 H2]%andb_true_iff.
  apply N.leb_le in H1, H2.
  apply orb_false_iff; split.
  - apply N.eqb_neq; lia.
  - apply andb_false_iff; right; apply N.leb_gt; lia.
Qed.

Lemma rstrip_digits s : all_of digit s = true -> Str.rstrip s = s.
Proof.
  induction s as [|c s IH]; [reflexivity|].
  cbn [all_of Str.rstrip]; intros [Hc Hall]%andb_true_iff.
  rewrite (IH Hall), (digit_not_space _ Hc); now destruct s.
Qed.

Lemma digits_value_digits s :
  all_of digit s = true ->
  forall acc, 0 <= acc -> exists n, Str.digits_value acc s = Some n /\ 0 <= n.
Proof.
  induction s as [|c s IH]; intros Hall acc Hacc; [simpl; eauto|].
  cbn [all_of] in Hall; apply andb_true_iff in Hall as [Hc Hall].
  cbn [Str.digits_value].
  assert (Hd : Str.is_digit c = true) by exact Hc.
  rewrite Hd; apply IH; [assumption|].
  unfold digit, between in Hc; apply andb_true_iff in Hc as [H1 _].
  apply N.leb_le in H1; lia.
Qed.

(** [int()] accepts every non-empty string of digits. *)
Lemma to_int_digits c s :
  all_of digit (String c s) = true ->
  exists n, Str.to_int (String c s) = Ok n /\ 0 <= n.
Proof.
  intros Hall; unfold Str.to_int.
  pose proof Hall as Hc; cbn [all_of] in Hc; apply andb_true_iff in Hc as [Hc _].
  cbn [Str.lstrip]; rewrite (digit_not_space _ Hc), (rstrip_digits _ Hall).
  destruct (digits_value_digits _ Hall 0) as (n & E & Hn); [lia|].
  assert (Hplain : Str.unsigned (String c s) = Some n) by exact E.
  exists n; split; [|assumption].
  destruct (Ascii.eqb_spec c "-") as [->|Hminus]; [discriminate Hc|].
  destruct (Ascii.eqb_spec c "+") as [->|Hplus]; [discriminate Hc|].
  destruct c as [[] [] [] [] [] [] [] []];
    try (exfalso; apply Hminus; reflexivity);
    try (exfalso; apply Hplus; reflexivity);
    now rewrite Hplain.
Qed.

(** What the pattern of the key length captures: a non-empty run of
    digits. *)
Lemma length_capture line groupdict :
  match_ (Star dot +++ Lit "Public-Key: (" +++ Named "length" (Plus digit)
            +++ Star dot +++ Lit ")") line = Some groupdict ->
  exists c digits,
    groupdict = {[ "length" := String c digits ]} /\
    all_of digit (String c digits) = true.
Proof.
  unfold match_; cbn [match_k].
  intros H; apply star_k_inv in H as (rest1 & _ & H).
  apply lit_k_inv in H as (rest2 & -> & H).
  apply plus_k_consumes in H as (c & digits & rest3 & -> & Hall & H).
  apply star_k_inv in H as (rest4 & _ & H).
  apply lit_k_inv in H as (rest5 & _ & [= <-]).
  exists c, digits; split; [|assumption].
  now rewrite consumed_app.
Qed.

Lemma full_regex_length line results regex results' :
  regex ∈ ssl_text_regexs ->
  full_regex line results regex = Ok results' ->
  length_wf results ->
  length_wf results'.
Proof.
  intros Hin E Hwf v; unfold full_regex in E.
  destruct (match_ regex line) as [groupdict|] eqn:Hm.
  - injection E as <-.
    unfold ssl_text_regexs in Hin.
    apply elem_of_cons in Hin as [->|Hin]; [|apply elem_of_cons in Hin as [->|Hin]];
      [| |apply list_elem_of_singleton in Hin as ->].
    + rewrite lookup_union_r; [apply Hwf|].
      rewrite lookup_fmap.
      destruct (groupdict !! "length") eqn:Hl; [exfalso|reflexivity].
      pose proof (match_groups _ _ _ "length" Hm) as Hg.
      rewrite Hl in Hg; specialize (Hg (ltac:(eauto))).
      cbn in Hg; apply list_elem_of_singleton in Hg; discriminate.
    + apply length_capture in Hm as (c & digits & -> & Hall).
      rewrite lookup_union_Some_raw, map_fmap_singleton, lookup_singleton_eq.
      intros [[= <-]|[[=] _]]; eauto.
    + rewrite lookup_union_r; [apply Hwf|].
      rewrite lookup_fmap.
      destruct (groupdict !! "length") eqn:Hl; [exfalso|reflexivity].
      pose proof (match_groups _ _ _ "length" Hm) as Hg.
      rewrite Hl in Hg; specialize (Hg (ltac:(eauto))).
      cbn in Hg; apply list_elem_of_singleton in Hg; discriminate.
  - destruct (findall ssl_dns_regex line) as [|x matches]; unfold_res.
    + injection E as <-; apply Hwf.
    + destruct (dns_names (x :: matches)); [|discriminate].
      injection E as <-; rewrite lookup_insert_ne by discriminate; apply Hwf.
Qed.

Lemma full_lines_length out results :
  Res.foldM full_line out ∅ = Ok results -> length_wf results.
Proof.
  destruct (foldM_invariant length_wf full_line out ∅) as (results' & E & Hwf).
  - intros v Hv; rewrite lookup_empty in Hv; discriminate.
  - intros b line _ Hb; unfold full_line.
    apply (foldM_invariant length_wf); [assumption|].
    intros b' regex Hin Hb'.
    destruct (full_regex_total line b' regex Hin) as (b'' & E & _).
    exists b''; split; [assumption|].
    exact (full_regex_length _ _ _ _ Hin E Hb').
  - intros H; rewrite E in H; injection H as <-; assumption.
Qed.

Lemma coerce_length_succeeds results :
  length_wf results -> exists coerced, coerce_length results = Ok coerced.
Proof.
  intros Hwf; unfold coerce_length; unfold_res.
  destruct (results !! "length") as [v|] eqn:E; [|eauto].
  destruct (Hwf v E) as (c & digits & -> & Hall).
  destruct (to_int_digits _ _ Hall) as (n & En & _).
  cbn [Py.int]; rewrite En; eauto.
Qed.

Lemma reconcile_names_succeeds results subject common_name :
  results !! "subject" = Some (VDict subject) ->
  subject !! "common_name" = Some common_name ->
  results !! "names" = None \/ (exists names, results !! "names" = Some (VList names)) ->
  exists reconciled, reconcile_names results = Ok reconciled.
Proof.
  intros Hs Hcn Hnames.
  assert (E : subject_common_name results = Ok common_name).
  { unfold subject_common_name, Py.getitem, Py.subscript; unfold_res.
    now rewrite Hs, Hcn. }
  unfold reconcile_names, Py.get, Py.getitem; unfold_res; rewrite E.
  destruct Hnames as [->|(names & ->)]; [simpl; eauto|].
  destruct names as [|x names]; simpl; [eauto|].
  destruct (bool_decide (common_name ∈ x :: names)); simpl; eauto.
Qed.

(** ** When an analysis succeeds *)

Section Success.
Variable w : World.
Variable filename : string.

(** With every step returning, the analysis comes to the assembly, having run
    the six commands. *)
Lemma analyze_run t modified dates subject issuer purpose ocsp_uri additional_info :
  getmtime w filename = Ok modified ->
  dates_outcome w filename = Ok dates ->
  dn_outcome w filename "-subject" = Ok subject ->
  dn_outcome w filename "-issuer" = Ok issuer ->
  purpose_outcome w filename = Ok purpose ->
  ocsp_uri_outcome w filename = Ok ocsp_uri ->
  full_outcome w filename = Ok additional_info ->
  analyze w filename t
  = (Res.bind
       (coerce_length
          (extracted modified dates subject issuer purpose ocsp_uri additional_info))
       reconcile_names,
     (t ++ commands filename)%list).
Proof.
  intros Hm Hd Hs Hi Hp Ho Hf.
  unfold analyze.
  unfold mbind at 1 2 3 4 5 6 7 8, M_bind, Eff.bind, Eff.lift.
  rewrite Hm, certificate_dates_run, Hd, certificate_subject_run, Hs,
    certificate_issuer_run, Hi, certificate_purpose_run, Hp,
    certificate_ocsp_uri_run, Ho, certificate_full_run, Hf.
  fold (extracted modified dates subject issuer purpose ocsp_uri additional_info).
  unfold commands; cbn [map]; rewrite <- !app_assoc; cbn [app].
  now destruct (coerce_length _).
Qed.

Lemma extracted_length_wf modified dates subject issuer purpose ocsp_uri additional_info :
  full_outcome w filename = Ok additional_info ->
  length_wf (extracted modified dates subject issuer purpose ocsp_uri additional_info).
Proof.
  intros Hfull v; destruct additional_info as [info|]; [|discriminate].
  unfold extracted; rewrite lookup_union_Some_raw.
  intros [Hv|[_ Hv]]; [|discriminate].
  revert v Hv; change (length_wf info).
  unfold full_outcome in Hfull; unfold_res.
  destruct (tool_lines w filename "-text") as [openssl_out|]; [|discriminate].
  destruct (Res.foldM full_line openssl_out ∅) as [results|] eqn:E; [|discriminate].
  unfold Py.or_none in Hfull; case_bool_decide; [discriminate|].
  injection Hfull as <-; exact (full_lines_length _ _ E).
Qed.
End Success.

(** X2: the analysis of a readable file returns a record as soon as the
    modification time can be read, each of the six extractors returns, and
    the subject has a common name; it then has run the six commands, once
    each and in their order, between the first log entry and the last. *)
Theorem ssl_analysis_succeeds w filename t modified dates subject common_name
    issuer purpose ocsp_uri additional_info :
  open_file w filename = None ->
  getmtime w filename = Ok modified ->
  fst (certificate_dates w filename []) = Ok dates ->
  fst (certificate_subject w filename []) = Ok (Some subject) ->
  subject !! "common_name" = Some common_name ->
  fst (certificate_issuer w filename []) = Ok issuer ->
  fst (certificate_purpose w filename []) = Ok purpose ->
  fst (certificate_ocsp_uri w filename []) = Ok ocsp_uri ->
  fst (certificate_full w filename []) = Ok additional_info ->
  exists results,
    ssl_analysis w filename t
    = (Ok (Some results),
       (t ++ found filename :: commands filename ++ [LogDebugElapsed filename])%list).
Proof.
  intros Hopen Hm Hd Hs Hcn Hi Hp Ho Hf.
  rewrite certificate_dates_run in Hd; rewrite certificate_subject_run in Hs.
  rewrite certificate_issuer_run in Hi; rewrite certificate_purpose_run in Hp.
  rewrite certificate_ocsp_uri_run in Ho; rewrite certificate_full_run in Hf.
  cbn [fst] in *.
  rewrite ssl_analysis_readable by assumption.
  rewrite (analyze_run w filename _ _ _ _ _ _ _ _ Hm Hd Hs Hi Hp Ho Hf).
  destruct (coerce_length_succeeds _
              (extracted_length_wf w filename modified dates (Some subject) issuer
                 purpose ocsp_uri additional_info Hf)) as (coerced & Hc).
  rewrite Hc; cbn [Res.bind].
  destruct (reconcile_names_succeeds coerced subject common_name)
    as (reconciled & Hr); [| assumption | |].
  - rewrite (coerce_length_other _ _ "subject" Hc) by discriminate.
    rewrite (extracted_own w filename) by
        (try assumption; do 2 apply list_elem_of_further; apply list_elem_of_here).
    reflexivity.
  - rewrite (coerce_length_other _ _ "names" Hc) by discriminate.
    pose proof (extracted_names w filename modified dates (Some subject) issuer
                  purpose ocsp_uri additional_info Hf) as Hn.
    destruct (gathered_names w filename) as [names|];
      [right; exists names; apply Hn|left; exact Hn].
  - rewrite Hr; exists reconciled.
    rewrite <- !app_assoc; reflexivity.
Qed.

Lemma ssl_analysis_succeeds_witness :
  exists results,
    ssl_analysis Sample.world Sample.filename []
    = (Ok (Some results),
       found Sample.filename :: commands Sample.filename
         ++ [LogDebugElapsed Sample.filename])%list.
Proof.
  apply (ssl_analysis_succeeds Sample.world Sample.filename [] 1600000000
           (match fst (certificate_dates Sample.world Sample.filename []) with
            | Ok dates => dates | Raise _ => None end)
           {[ "country" := SStr "US"; "state" := SStr "California";
              "organization" := SStr "Example, Inc.";
              "common_name" := SStr "example.com" ]}
           (SStr "example.com")
           (match fst (certificate_issuer Sample.world Sample.filename []) with
            | Ok issuer => issuer | Raise _ => None end)
           (match fst (certificate_purpose Sample.world Sample.filename []) with
            | Ok purpose => purpose | Raise _ => None end)
           (Some "http://ocsp.example.com")
           (match fst (certificate_full Sample.world Sample.filename []) with
            | Ok info => info | Raise _ => None end));
    by_evaluation.
Defined.

(** ** What a returned record holds *)

(** The six entries that the orchestrator sets reach the returned record
    untouched. *)
Lemma analyze_six w filename t results t' :
  analyze w filename t = (Ok results, t') ->
  exists modified dates subject issuer purpose ocsp_uri,
    getmtime w filename = Ok modified /\
    dates_outcome w filename = Ok dates /\
    dn_outcome w filename "-subject" = Ok subject /\
    dn_outcome w filename "-issuer" = Ok issuer /\
    purpose_outcome w filename = Ok purpose /\
    ocsp_uri_outcome w filename = Ok ocsp_uri /\
    forall key,
      key ∈ ["modified"; "dates"; "subject"; "issuer"; "purpose"; "ocsp_uri"] ->
      results !! key
      = extracted modified dates subject issuer purpose ocsp_uri None !! key.
Proof.
  intros Ha; apply analyze_ok in Ha
    as (modified & dates & subject & issuer & purpose & ocsp_uri & info & coerced
        & Hm & Hd & Hs & Hi & Hp & Ho & Hfull & Hc & Hr).
  exists modified, dates, subject, issuer, purpose, ocsp_uri.
  repeat split; try assumption.
  intros key Hin.
  assert (Hne : key <> "names" /\ key <> "length").
  { repeat (apply elem_of_cons in Hin as [->|Hin]; [split; discriminate|]).
    inversion Hin. }
  destruct Hne as [Hn Hl].
  rewrite (reconcile_names_other _ _ key Hr), (coerce_length_other _ _ key Hc)
    by assumption.
  apply (extracted_own w filename); [assumption|].
  exact Hin.
Qed.

(** X3: a returned record holds, under the six keys that the orchestrator
    sets, what the file system and the extractors returned: the modification
    time, and the result of each extractor, [None] included. *)
Theorem record_entries w filename t results t' :
  ssl_analysis w filename t = (Ok (Some results), t') ->
  exists modified dates subject issuer purpose ocsp_uri,
    getmtime w filename = Ok modified /\
    fst (certificate_dates w filename []) = Ok dates /\
    fst (certificate_subject w filename []) = Ok subject /\
    fst (certificate_issuer w filename []) = Ok issuer /\
    fst (certificate_purpose w filename []) = Ok purpose /\
    fst (certificate_ocsp_uri w filename []) = Ok ocsp_uri /\
    results !! "modified" = Some (VInt modified) /\
    results !! "dates" = Some (Py.of_dict dates) /\
    results !! "subject" = Some (Py.of_dict subject) /\
    results !! "issuer" = Some (Py.of_dict issuer) /\
    results !! "purpose" = Some (Py.of_dict purpose) /\
    results !! "ocsp_uri" = Some (Py.of_str ocsp_uri).
Proof.
  intros H; apply ssl_analysis_some in H as (_ & t0 & t1 & Ha).
  apply analyze_six in Ha
    as (modified & dates & subject & issuer & purpose & ocsp_uri
        & Hm & Hd & Hs & Hi & Hp & Ho & Hkey).
  exists modified, dates, subject, issuer, purpose, ocsp_uri.
  rewrite certificate_dates_run, certificate_subject_run, certificate_issuer_run,
    certificate_purpose_run, certificate_ocsp_uri_run; cbn [fst].
  repeat split; try assumption;
    (rewrite Hkey;
     [reflexivity
     |repeat first [apply list_elem_of_here | apply list_elem_of_further]]).
Qed.

Lemma record_entries_witness :
  exists modified dates subject issuer purpose ocsp_uri,
    getmtime Sample.world Sample.filename = Ok modified /\
    fst (certificate_dates Sample.world Sample.filename []) = Ok dates /\
    fst (certificate_subject Sample.world Sample.filename []) = Ok subject /\
    fst (certificate_issuer Sample.world Sample.filename []) = Ok issuer /\
    fst (certificate_purpose Sample.world Sample.filename []) = Ok purpose /\
    fst (certificate_ocsp_uri Sample.world Sample.filename []) = Ok ocsp_uri /\
    returned (ssl_analysis Sample.world Sample.filename []) !! "modified"
    = Some (VInt modified) /\
    returned (ssl_analysis Sample.world Sample.filename []) !! "dates"
    = Some (Py.of_dict dates) /\
    returned (ssl_analysis Sample.world Sample.filename []) !! "subject"
    = Some (Py.of_dict subject) /\
    returned (ssl_analysis Sample.world Sample.filename []) !! "issuer"
    = Some (Py.of_dict issuer) /\
    returned (ssl_analysis Sample.world Sample.filename []) !! "purpose"
    = Some (Py.of_dict purpose) /\
    returned (ssl_analysis Sample.world Sample.filename []) !! "ocsp_uri"
    = Some (Py.of_str ocsp_uri).
Proof.
  apply (record_entries Sample.world Sample.filename []
           (returned (ssl_analysis Sample.world Sample.filename []))
           (snd (ssl_analysis Sample.world Sample.filename []))).
  by_evaluation.
Defined.

(** In a returned record [names] is a list. *)
Lemma names_hold_common_name_keys w filename t results t' :
  ssl_analysis w filename t = (Ok (Some results), t') ->
  exists names, results !! "names" = Some (VList names).
Proof.
  intros H; apply ssl_analysis_some in H as (_ & t0 & t1 & Ha).
  apply analyze_ok in Ha
    as (modified & dates & subject0 & issuer & purpose & ocsp_uri & info & coerced
        & _ & _ & _ & _ & _ & _ & Hfull & Hc & Hr).
  pose proof (extracted_names w filename modified dates subject0 issuer purpose
                ocsp_uri info Hfull) as Hg.
  rewrite <- (coerce_length_other _ _ "names" Hc) in Hg by discriminate.
  destruct (reconcile_names_ok coerced results (gathered_names w filename) Hr)
    as (common_name & _ & Hnames); [|eauto].
  destruct (gathered_names w filename); [split|]; apply Hg.
Qed.

Lemma extracted_base_keys modified dates subject issuer purpose ocsp_uri key v :
  extracted modified dates subject issuer purpose ocsp_uri None !! key = Some v ->
  key ∈ ["modified"; "dates"; "subject"; "issuer"; "purpose"; "ocsp_uri";
         "names"; "public_key_algorithm"; "length"; "signature_algorithm"].
Proof.
  unfold extracted; rewrite !lookup_insert_Some, lookup_empty; intros H.
  repeat (destruct H as [[<- _]|[_ H]];
          [repeat first [apply list_elem_of_here | apply list_elem_of_further]|]).
  discriminate H.
Qed.

(** X4: a returned record has no other keys than the six of the
    orchestrator, [names], and the three of the algorithm patterns; the first
    seven are always there. *)
Theorem record_keys w filename t results t' :
  ssl_analysis w filename t = (Ok (Some results), t') ->
  (forall key,
      is_Some (results !! key) ->
      key ∈ ["modified"; "dates"; "subject"; "issuer"; "purpose"; "ocsp_uri";
             "names"; "public_key_algorithm"; "length"; "signature_algorithm"]) /\
  (forall key,
      key ∈ ["modified"; "dates"; "subject"; "issuer"; "purpose"; "ocsp_uri"; "names"] ->
      is_Some (results !! key)).
Proof.
  intros H.
  destruct (names_hold_common_name_keys w filename t results t' H) as (names & Hnames).
  apply ssl_analysis_some in H as (_ & t0 & t1 & Ha).
  destruct (analyze_six w filename _ _ _ Ha)
    as (modified & dates & subject & issuer & purpose & ocsp_uri
        & _ & _ & _ & _ & _ & _ & Hsix).
  apply analyze_ok in Ha
    as (modified' & dates' & subject' & issuer' & purpose' & ocsp_uri' & info & coerced
        & _ & _ & _ & _ & _ & _ & Hfull & Hc & Hr).
  split.
  - intros key Hkey.
    destruct (decide (key = "names")) as [->|Hn];
      [do 6 apply list_elem_of_further; apply list_elem_of_here|].
    destruct (decide (key = "length")) as [->|Hl];
      [do 8 apply list_elem_of_further; apply list_elem_of_here|].
    rewrite (reconcile_names_other _ _ key Hr), (coerce_length_other _ _ key Hc)
      in Hkey by assumption.
    destruct Hkey as [v Hv].
    destruct info as [info|]; [|exact (extracted_base_keys _ _ _ _ _ _ _ _ Hv)].
    unfold extracted in Hv.
    apply lookup_union_Some_raw in Hv as [Hv|[_ Hv]];
      [|exact (extracted_base_keys modified' dates' subject' issuer' purpose'
                 ocsp_uri' _ _ Hv)].
    destruct (full_outcome_wf w filename _ Hfull _ _ Hv) as [[-> _]|[Hin _]];
      [congruence|].
    unfold text_keys in Hin.
    repeat (apply elem_of_cons in Hin as [->|Hin];
      [repeat first [apply list_elem_of_here | apply list_elem_of_further]|]).
    inversion Hin.
  - intros key Hkey.
    destruct (decide (key = "names")) as [->|Hn]; [eauto|].
    rewrite Hsix; [unfold extracted|].
    + repeat (apply elem_of_cons in Hkey as [->|Hkey];
              [first [now destruct Hn | eexists; reflexivity]|]).
      inversion Hkey.
    + repeat (apply elem_of_cons in Hkey as [->|Hkey];
              [first [congruence
                     |repeat first [apply list_elem_of_here | apply list_elem_of_further]]|]).
      inversion Hkey.
Qed.

Lemma record_keys_witness :
  "length" ∈ ["modified"; "dates"; "subject"; "issuer"; "purpose"; "ocsp_uri";
              "names"; "public_key_algorithm"; "length"; "signature_algorithm"] /\
  is_Some (returned (ssl_analysis Sample.world Sample.filename []) !! "names").
Proof.
  destruct (record_keys Sample.world Sample.filename []
              (returned (ssl_analysis Sample.world Sample.filename []))
              (snd (ssl_analysis Sample.world Sample.filename [])))
    as [Hin Hhas]; [by_evaluation|].
  split.
  - apply Hin; exists (VInt 2048); by_evaluation.
  - apply Hhas; do 6 apply list_elem_of_further; apply list_elem_of_here.
Defined.

(** ** What an analysis runs *)

(** The commands of an analysis that stops are the first of the six. *)
Lemma analyze_trace w filename t :
  exists n, snd (analyze w filename t) = (t ++ take n (commands filename))%list.
Proof.
  unfold analyze.
  unfold mbind at 1 2 3 4 5 6 7 8, M_bind, Eff.bind, Eff.lift.
  destruct (getmtime w filename) as [modified|];
    [|exists 0%nat; cbn; now rewrite app_nil_r].
  rewrite certificate_dates_run.
  destruct (dates_outcome w filename) as [dates|]; [|exists 1%nat; reflexivity].
  rewrite certificate_subject_run.
  destruct (dn_outcome w filename "-subject") as [subject|];
    [|exists 2%nat; cbn; now rewrite <- !app_assoc].
  rewrite certificate_issuer_run.
  destruct (dn_outcome w filename "-issuer") as [issuer|];
    [|exists 3%nat; cbn; now rewrite <- !app_assoc].
  rewrite certificate_purpose_run.
  destruct (purpose_outcome w filename) as [purpose|];
    [|exists 4%nat; cbn; now rewrite <- !app_assoc].
  rewrite certificate_ocsp_uri_run.
  destruct (ocsp_uri_outcome w filename) as [ocsp_uri|];
    [|exists 5%nat; cbn; now rewrite <- !app_assoc].
  rewrite certificate_full_run.
  exists 6%nat.
  destruct (full_outcome w filename) as [additional_info|];
    [|cbn; now rewrite <- !app_assoc].
  destruct (coerce_length _); cbn; now rewrite <- !app_assoc.
Qed.

Lemma calls_take_commands filename n :
  calls (take n (commands filename)) = take n (commands filename).
Proof. do 7 (destruct n as [|n]; [reflexivity|]); reflexivity. Qed.

(** X5: whatever the collaborators do, and whether it returns a record,
    [None] or raises, [ssl_analysis] hands to the runner nothing but the six
    [openssl x509] commands on its file, each at most once and in their
    order: the commands of a run are the first [n] of the six. *)
Theorem ssl_analysis_commands w filename t :
  exists n,
    calls (snd (ssl_analysis w filename t))
    = (calls t ++ take n (commands filename))%list.
Proof.
  destruct (open_file w filename) as [e|] eqn:Hopen.
  - exists 0%nat; cbn [take]; rewrite app_nil_r.
    destruct (is_IOError e) eqn:He.
    + destruct e; try discriminate He.
      rewrite ssl_analysis_unreadable by assumption; cbn [snd].
      unfold calls; rewrite !filter_app; cbn; now rewrite !app_nil_r.
    + rewrite (ssl_analysis_open_raises _ _ _ e) by assumption; cbn [snd].
      unfold calls; rewrite !filter_app; cbn; now rewrite !app_nil_r.
  - rewrite ssl_analysis_readable by assumption.
    destruct (analyze_trace w filename (t ++ [found filename])) as (n & Hn).
    exists n.
    destruct (analyze w filename _) as [[results|e] t1]; cbn [snd] in *; subst t1;
      unfold calls; rewrite !filter_app; cbn [filter found failed is_call];
      fold (calls (take n (commands filename)));
      rewrite calls_take_commands;
      cbn; now rewrite !app_nil_r.
Qed.

(** X6: when the modification time cannot be read (the file went away after
    it was opened), the analysis returns [None] without running any command;
    the log names the exception. *)
Theorem getmtime_failure_runs_no_tool w filename t e :
  open_file w filename = None ->
  getmtime w filename = Raise e ->
  ssl_analysis w filename t
  = (Ok None,
     (t ++ [found filename; failed filename e; LogDebugElapsed filename])%list).
Proof.
  intros Hopen Hm.
  rewrite ssl_analysis_readable by assumption.
  unfold analyze.
  unfold mbind at 1, M_bind, Eff.bind, Eff.lift; rewrite Hm.
  now rewrite <- !app_assoc.
Qed.

Lemma getmtime_failure_runs_no_tool_witness :
  ssl_analysis
    {| open_file := fun _ => None;
       getmtime := fun _ => Raise OSError;
       subp_call := subp_call Sample.world;
       strptime_epoch := Sample.epoch |}
    Sample.filename []
  = (Ok None,
     [found Sample.filename; failed Sample.filename OSError;
      LogDebugElapsed Sample.filename]).
Proof.
  apply (getmtime_failure_runs_no_tool
           {| open_file := fun _ => None;
              getmtime := fun _ => Raise OSError;
              subp_call := subp_call Sample.world;
              strptime_epoch := Sample.epoch |}
           Sample.filename [] OSError); reflexivity.
Defined.

(** X7: when the runner raises on any of the six commands, the analysis of a
    readable file returns [None]. *)
Theorem runner_failure_no_result w filename t flag e :
  open_file w filename = None ->
  flag ∈ ["-dates"; "-subject"; "-issuer"; "-purpose"; "-ocsp_uri"; "-text"] ->
  subp_call w (openssl_x509 filename flag) = Raise e ->
  exists t', ssl_analysis w filename t = (Ok None, t').
Proof.
  intros Hopen Hflag Hcall.
  destruct (ssl_analysis_readable_returns w filename t Hopen)
    as (result & t' & E & _ & Hsome).
  exists t'; rewrite E; destruct result as [results|]; [exfalso|reflexivity].
  destruct (Hsome results eq_refl) as (t0 & t1 & Ha).
  apply analyze_ok in Ha
    as (modified & dates & subject & issuer & purpose & ocsp_uri & info & coerced
        & _ & Hd & Hs & Hi & Hp & Ho & Hf & _).
  unfold dates_outcome, dn_outcome, purpose_outcome, ocsp_uri_outcome, full_outcome,
    tool_lines in *.
  repeat (apply elem_of_cons in Hflag as [->|Hflag];
          [rewrite Hcall in *; discriminate|]).
  inversion Hflag.
Qed.

Lemma runner_failure_no_result_witness :
  exists t',
    ssl_analysis
      {| open_file := fun _ => None;
         getmtime := fun _ => Ok 1600000000;
         subp_call := fun command =>
           if String.eqb command (openssl_x509 Sample.filename "-purpose")
           then Raise OSError else subp_call Sample.world command;
         strptime_epoch := Sample.epoch |}
      Sample.filename [] = (Ok None, t').
Proof.
  apply (runner_failure_no_result _ Sample.filename [] "-purpose" OSError).
  - reflexivity.
  - do 3 apply list_elem_of_further; apply list_elem_of_here.
  - reflexivity.
Defined.

(** ** The validity dates, the names of the subject and the purposes *)

Lemma foldM_preserves {A B : Type} (P : B -> Prop) (f : B -> A -> res B) l :
  (forall b x b', x ∈ l -> f b x = Ok b' -> P b -> P b') ->
  forall acc r, P acc -> Res.foldM f l acc = Ok r -> P r.
Proof.
  induction l as [|x l IH]; intros Hstep acc r Hacc; simpl.
  - now intros [= <-].
  - destruct (f acc x) as [next|] eqn:E; simpl; [|discriminate].
    apply IH; [intros b y b' Hy; apply Hstep; now right|].
    eapply Hstep; [left|exact E|exact Hacc].
Qed.

Lemma foldl_preserves {A B : Type} (P : B -> Prop) (f : B -> A -> B) l :
  (forall b x, x ∈ l -> P b -> P (f b x)) ->
  forall acc, P acc -> P (foldl f acc l).
Proof.
  induction l as [|x l IH]; intros Hstep acc Hacc; simpl; [assumption|].
  apply IH; [intros b y Hy; apply Hstep; now right|].
  apply Hstep; [left|assumption].
Qed.

Lemma split_two sep a line first second :
  Str.split (String a sep) line = [first; second] ->
  line = first ++ String a sep ++ second.
Proof.
  intros H; rewrite <- (join_split a sep line) at 1; now rewrite H.
Qed.

Lemma dates_keys_lookup key name :
  dates_keys !! key = Some name ->
  (key = "notBefore" /\ name = "start") \/ (key = "notAfter" /\ name = "end").
Proof.
  unfold dates_keys; rewrite lookup_insert_Some, lookup_singleton_Some.
  intros [[<- <-]|[_ [<- <-]]]; auto.
Qed.

(** X8: every entry of the validity mapping is [start] or [end], and its
    value is the integer that the date parser returned for the value of an
    output line [notBefore=...] or [notAfter=...] respectively. *)
Theorem dates_entries w filename t openssl_out err dates t' :
  subp_call w (openssl_x509 filename "-dates") = Ok (openssl_out, err) ->
  certificate_dates w filename t = (Ok (Some dates), t') ->
  forall key v,
    dates !! key = Some v ->
    exists name value seconds,
      ((name = "notBefore" /\ key = "start") \/ (name = "notAfter" /\ key = "end")) /\
      (name ++ "=" ++ value) ∈ openssl_out /\
      strptime_epoch w value = Ok seconds /\
      v = SInt seconds.
Proof.
  intros Hcall; rewrite certificate_dates_run.
  unfold dates_outcome, tool_lines; rewrite Hcall; unfold_res.
  destruct (Res.foldM (dates_line w) openssl_out ∅) as [results|] eqn:E;
    [|discriminate].
  intros [= H _]; unfold Py.or_none in H; case_bool_decide; [discriminate|].
  injection H as <-.
  refine (foldM_preserves
            (fun d : gmap string scalar =>
               forall key v,
                 d !! key = Some v ->
                 exists name value seconds,
                   ((name = "notBefore" /\ key = "start")
                    \/ (name = "notAfter" /\ key = "end")) /\
                   (name ++ "=" ++ value) ∈ openssl_out /\
                   strptime_epoch w value = Ok seconds /\
                   v = SInt seconds)
            (dates_line w) openssl_out _ ∅ results _ E);
    [|intros key v Hv; rewrite lookup_empty in Hv; discriminate].
  intros b line b' Hin Hline Hb key v.
  unfold dates_line in Hline; unfold_res.
  destruct (Str.truthy line); [|injection Hline as <-; apply Hb].
  destruct (Str.split "=" line) as [|name [|value [|other pieces]]] eqn:Hsplit;
    try discriminate.
  apply split_two in Hsplit.
  destruct (dates_keys !! name) as [key'|] eqn:Hk; [|injection Hline as <-; apply Hb].
  destruct (strptime_epoch w value) as [seconds|] eqn:Hp; [|discriminate].
  injection Hline as <-.
  destruct (decide (key' = key)) as [->|Hne].
  - rewrite lookup_insert_eq; intros [= <-].
    exists name, value, seconds; repeat split; try assumption.
    + apply dates_keys_lookup in Hk; tauto.
    + now rewrite <- Hsplit.
  - rewrite lookup_insert_ne by assumption; apply Hb.
Qed.

Lemma dates_entries_witness :
  exists name value seconds,
    ((name = "notBefore" /\ "start" = "start")
     \/ (name = "notAfter" /\ "start" = "end")) /\
    (name ++ "=" ++ value) ∈ Sample.dates_out /\
    strptime_epoch Sample.world value = Ok seconds /\
    SInt 1577836800 = SInt seconds.
Proof.
  refine (dates_entries Sample.world Sample.filename [] Sample.dates_out [""]
            {[ "start" := SInt 1577836800; "end" := SInt 1893456000 ]}
            (snd (certificate_dates Sample.world Sample.filename []))
            _ _ "start" (SInt 1577836800) _);
    by_evaluation.
Defined.

(** X9: a line [notBefore=...] or [notAfter=...] whose value the date parser
    rejects makes [certificate_dates] raise, and the analysis of the file
    return [None]. *)
Theorem rejected_date_no_result w filename t openssl_out err line key value e :
  open_file w filename = None ->
  subp_call w (openssl_x509 filename "-dates") = Ok (openssl_out, err) ->
  line ∈ openssl_out ->
  Str.split "=" line = [key; value] ->
  key = "notBefore" \/ key = "notAfter" ->
  strptime_epoch w value = Raise e ->
  (exists e' t', certificate_dates w filename t = (Raise e', t')) /\
  (exists t', ssl_analysis w filename t = (Ok None, t')).
Proof.
  intros Hopen Hcall Hin Hsplit Hkey Hparse.
  assert (Hline : forall results, exists e', dates_line w results line = Raise e').
  { intros results; unfold dates_line; unfold_res.
    destruct line as [|c line]; [discriminate Hsplit|].
    cbn [Str.truthy]; rewrite Hsplit.
    destruct Hkey as [-> | ->]; cbn; rewrite Hparse; eauto. }
  assert (Hdates : exists e', dates_outcome w filename = Raise e').
  { unfold dates_outcome, tool_lines; rewrite Hcall; unfold_res.
    destruct (foldM_raises (dates_line w) openssl_out line Hin Hline
                (∅ : gmap string scalar)) as (e' & ->); eauto. }
  destruct Hdates as (e' & Hdates); split.
  - rewrite certificate_dates_run, Hdates; eauto.
  - destruct (ssl_analysis_readable_returns w filename t Hopen)
      as (result & t' & E & _ & Hsome).
    exists t'; rewrite E; destruct result as [results|]; [exfalso|reflexivity].
    destruct (Hsome results eq_refl) as (t0 & t1 & Ha).
    apply analyze_ok in Ha as (? & dates & ? & ? & ? & ? & ? & ? & _ & Hd & _).
    congruence.
Qed.

Lemma rejected_date_no_result_witness :
  exists t',
    ssl_analysis
      {| open_file := fun _ => None;
         getmtime := fun _ => Ok 1600000000;
         subp_call := fun _ => Ok (["notBefore=Jan  1 00:00:00 2020 GMT";
                                    "notAfter=never"; ""], [""]);
         strptime_epoch := Sample.epoch |}
      Sample.filename [] = (Ok None, t').
Proof.
  eapply proj2,
    (rejected_date_no_result _ _ _ _ _ "notAfter=never" "notAfter" "never" ValueError).
  - reflexivity.
  - reflexivity.
  - apply list_elem_of_further, list_elem_of_here.
  - reflexivity.
  - right; reflexivity.
  - reflexivity.
Defined.

(** What a pattern of the catalog of names captures: one group, and in it a
    non-empty run of characters of its class. *)
Lemma dn_capture prefix name cls line groupdict :
  match_ (Star dot +++ Lit prefix +++ Named name (Plus cls) +++ Star dot) line
  = Some groupdict ->
  exists c text,
    groupdict = {[ name := String c text ]} /\ all_of cls (String c text) = true.
Proof.
  unfold match_; cbn [match_k].
  intros H; apply star_k_inv in H as (rest1 & _ & H).
  apply lit_k_inv in H as (rest2 & -> & H).
  apply plus_k_consumes in H as (c & text & rest3 & -> & Hall & H).
  apply star_k_inv in H as (rest4 & _ & [= <-]).
  exists c, text; split; [|assumption].
  now rewrite consumed_app.
Qed.

Lemma ssl_regexs_capture regex line groupdict :
  regex ∈ ssl_regexs ->
  match_ regex line = Some groupdict ->
  exists key c text, key ∈ dn_keys /\ groupdict = {[ key := String c text ]}.
Proof.
  intros Hin Hm; unfold ssl_regexs in Hin.
  repeat (apply elem_of_cons in Hin as [->|Hin];
          [apply dn_capture in Hm as (c & text & -> & _);
           eexists _, c, text; split; [|reflexivity];
           unfold dn_keys;
           repeat first [apply list_elem_of_here | apply list_elem_of_further]|]).
  inversion Hin.
Qed.

(** The mapping of a distinguished name, at every turn of its loops. *)
Lemma dn_lines_shape openssl_out :
  forall key v,
    foldl dn_line ∅ openssl_out !! key = Some v ->
    key ∈ dn_keys /\ exists c text, v = SStr (String c text).
Proof.
  apply (foldl_preserves
           (fun d : gmap string scalar =>
              forall key v,
                d !! key = Some v ->
                key ∈ dn_keys /\ exists c text, v = SStr (String c text)));
    [|intros key v Hv; rewrite lookup_empty in Hv; discriminate].
  intros b line _ Hb; unfold dn_line.
  destruct (Str.truthy line); [|assumption].
  apply (foldl_preserves
           (fun d : gmap string scalar =>
              forall key v,
                d !! key = Some v ->
                key ∈ dn_keys /\ exists c text, v = SStr (String c text)));
    [|assumption].
  intros d regex Hin Hd key v; unfold dn_regex.
  destruct (match_ regex line) as [groupdict|] eqn:Hm; [|apply Hd].
  apply (ssl_regexs_capture _ _ _ Hin) in Hm as (key' & c & text & Hkey & ->).
  rewrite lookup_union_Some_raw, map_fmap_singleton, lookup_singleton_Some.
  intros [[<- <-]|[_ Hv]]; [eauto|now apply Hd].
Qed.

(** X10: every entry of the mapping of the subject, and of the issuer, has
    one of the six component names for its key and a non-empty string for
    its value. *)
Theorem dn_entries w filename t d t' :
  certificate_subject w filename t = (Ok (Some d), t') \/
  certificate_issuer w filename t = (Ok (Some d), t') ->
  forall key v,
    d !! key = Some v ->
    key ∈ dn_keys /\ exists c text, v = SStr (String c text).
Proof.
  assert (Hflag : forall flag,
             dn_outcome w filename flag = Ok (Some d) ->
             forall key v,
               d !! key = Some v ->
               key ∈ dn_keys /\ exists c text, v = SStr (String c text)).
  { intros flag; unfold dn_outcome; unfold_res.
    destruct (tool_lines w filename flag) as [openssl_out|]; [|discriminate].
    unfold Py.or_none; case_bool_decide; [discriminate|].
    intros [= <-]; apply dn_lines_shape. }
  rewrite certificate_subject_run, certificate_issuer_run.
  intros [[= H _]|[= H _]]; exact (Hflag _ H).
Qed.

Lemma dn_entries_witness :
  "common_name" ∈ dn_keys /\ exists c text, SStr "example.com" = SStr (String c text).
Proof.
  refine (dn_entries Sample.world Sample.filename []
            {[ "country" := SStr "US"; "state" := SStr "California";
               "organization" := SStr "Example, Inc.";
               "common_name" := SStr "example.com" ]}
            (snd (certificate_subject Sample.world Sample.filename []))
            (or_introl _) "common_name" (SStr "example.com") _);
    by_evaluation.
Defined.

(** X11: every entry of the mapping of the purposes comes from an output
    line [label : value], whose label is the key and whose value is the
    value. *)
Theorem purpose_entries w filename t openssl_out err purposes t' :
  subp_call w (openssl_x509 filename "-purpose") = Ok (openssl_out, err) ->
  certificate_purpose w filename t = (Ok (Some purposes), t') ->
  forall label v,
    purposes !! label = Some v ->
    exists value, v = SStr value /\ (label ++ " : " ++ value) ∈ openssl_out.
Proof.
  intros Hcall; rewrite certificate_purpose_run.
  unfold purpose_outcome, tool_lines; rewrite Hcall; unfold_res.
  unfold Py.or_none; case_bool_decide; [discriminate|].
  intros [= <- _].
  apply (foldl_preserves
           (fun d : gmap string scalar =>
              forall label v,
                d !! label = Some v ->
                exists value, v = SStr value /\ (label ++ " : " ++ value) ∈ openssl_out));
    [|intros label v Hv; rewrite lookup_empty in Hv; discriminate].
  intros b line Hin Hb label v; unfold purpose_line.
  destruct (Str.truthy line); [|apply Hb].
  destruct (Str.split " : " line) as [|key [|value [|other pieces]]] eqn:Hsplit;
    cbn; try apply Hb.
  apply split_two in Hsplit.
  destruct (decide (key = label)) as [->|Hne].
  - rewrite lookup_insert_eq; intros [= <-].
    exists value; split; [reflexivity|now rewrite <- Hsplit].
  - rewrite lookup_insert_ne by assumption; apply Hb.
Qed.

Lemma purpose_entries_witness :
  exists value,
    SStr "Yes" = SStr value /\ ("SSL client" ++ " : " ++ value) ∈ Sample.purpose_out.
Proof.
  refine (purpose_entries Sample.world Sample.filename [] Sample.purpose_out [""]
            {[ "SSL client" := SStr "Yes"; "SSL client CA" := SStr "No";
               "SSL server" := SStr "Yes" ]}
            (snd (certificate_purpose Sample.world Sample.filename []))
            _ _ "SSL client" (SStr "Yes") _);
    by_evaluation.
Defined.

(** X12: when no output line holds the separator [ : ], there is no mapping
    of purposes: the extractor returns [None], whatever the lines. *)
Theorem purpose_without_separator w filename t openssl_out err :
  subp_call w (openssl_x509 filename "-purpose") = Ok (openssl_out, err) ->
  (forall line, line ∈ openssl_out -> Str.contains " : " line = false) ->
  certificate_purpose w filename t
  = (Ok None, (t ++ [Call (openssl_x509 filename "-purpose")])%list).
Proof.
  intros Hcall Hnone; rewrite certificate_purpose_run.
  unfold purpose_outcome, tool_lines; rewrite Hcall; unfold_res.
  assert (E : foldl purpose_line ∅ openssl_out = ∅).
  { apply (foldl_preserves (fun d : gmap string scalar => d = ∅)); [|reflexivity].
    intros b line Hin ->; unfold purpose_line.
    rewrite (split_without _ _ (Hnone line Hin)).
    now destruct (Str.truthy line). }
  rewrite E; reflexivity.
Qed.

Lemma purpose_without_separator_witness :
  certificate_purpose
    (Sample.world_with Sample.subject_out Sample.ocsp_out Sample.text_out)
    "/etc/nginx/missing.crt" []
  = (Ok None, [Call (openssl_x509 "/etc/nginx/missing.crt" "-purpose")]).
Proof.
  apply (purpose_without_separator _ "/etc/nginx/missing.crt" [] [""]
           ["unable to load certificate"; ""]).
  - reflexivity.
  - intros line Hin; apply list_elem_of_singleton in Hin as ->; reflexivity.
Defined.

(** ** The full-text extractor as a whole *)

(** X13: whatever lines the runner returns for the full-text dump,
    [certificate_full] does not raise.  What it returns is [None] or a
    mapping that is not empty, in which [names] is a non-empty list, the keys
    of the algorithm patterns hold strings, the length is a non-empty string
    of digits, and there is no other key. *)
Theorem certificate_full_returns w filename t openssl_out err :
  subp_call w (openssl_x509 filename "-text") = Ok (openssl_out, err) ->
  exists result,
    certificate_full w filename t
    = (Ok result, (t ++ [Call (openssl_x509 filename "-text")])%list) /\
    forall info,
      result = Some info ->
      info <> ∅ /\
      (forall key v,
          info !! key = Some v ->
          (key = "names" /\ exists l, v = VList l /\ l <> []) \/
          (key ∈ ["public_key_algorithm"; "length"; "signature_algorithm"]
           /\ exists s, v = VStr s)) /\
      (forall v,
          info !! "length" = Some v ->
          exists c digits,
            v = VStr (String c digits) /\ all_of digit (String c digits) = true).
Proof.
  intros Hcall; rewrite certificate_full_run.
  unfold full_outcome, tool_lines; rewrite Hcall; unfold_res.
  destruct (full_lines_total openssl_out) as (results & E & Hwf).
  rewrite E; eexists; split; [reflexivity|].
  intros info Hinfo.
  pose proof (or_none_nonempty _ _ Hinfo) as Hne.
  unfold Py.or_none in Hinfo; case_bool_decide; [discriminate|].
  injection Hinfo as <-.
  split; [assumption|split]; [exact Hwf|exact (full_lines_length _ _ E)].
Qed.

Lemma certificate_full_returns_witness :
  exists result,
    certificate_full Sample.world Sample.filename []
    = (Ok result, [Call (openssl_x509 Sample.filename "-text")]) /\
    forall info,
      result = Some info ->
      info <> ∅ /\
      (forall key v,
          info !! key = Some v ->
          (key = "names" /\ exists l, v = VList l /\ l <> []) \/
          (key ∈ ["public_key_algorithm"; "length"; "signature_algorithm"]
           /\ exists s, v = VStr s)) /\
      (forall v,
          info !! "length" = Some v ->
          exists c digits,
            v = VStr (String c digits) /\ all_of digit (String c digits) = true).
Proof.
  apply (certificate_full_returns Sample.world Sample.filename []
           Sample.text_out [""]).
  reflexivity.
Defined.

(** ** A tool that prints nothing *)

Lemma blank_full_line results line :
  line = "" -> full_line results line = Ok results.
Proof. intros ->; reflexivity. Qed.

Lemma blank_loops w openssl_out :
  Forall (fun line => line = "") openssl_out ->
  Res.foldM (dates_line w) openssl_out ∅ = Ok ∅ /\
  foldl dn_line ∅ openssl_out = ∅ /\
  foldl purpose_line ∅ openssl_out = ∅ /\
  Res.foldM full_line openssl_out ∅ = Ok ∅.
Proof.
  induction 1 as [|line l -> _ (IHd & IHn & IHp & IHf)]; [now repeat split|].
  repeat split; [exact IHd|exact IHn|exact IHp|].
  cbn [Res.foldM]; rewrite (blank_full_line ∅ "" eq_refl); exact IHf.
Qed.

(** X14: when the runner returns only empty lines (or no line) for a command,
    as it does for a file that [openssl] cannot load, the extractors of the
    dates, the subject, the issuer, the purposes and the full text return
    [None]: none of them raises. *)
Theorem blank_output_gives_none w filename t :
  (forall flag openssl_out err,
      subp_call w (openssl_x509 filename flag) = Ok (openssl_out, err) ->
      Forall (fun line => line = "") openssl_out ->
      (flag = "-dates" -> fst (certificate_dates w filename t) = Ok None) /\
      (flag = "-subject" -> fst (certificate_subject w filename t) = Ok None) /\
      (flag = "-issuer" -> fst (certificate_issuer w filename t) = Ok None) /\
      (flag = "-purpose" -> fst (certificate_purpose w filename t) = Ok None) /\
      (flag = "-text" -> fst (certificate_full w filename t) = Ok None)).
Proof.
  intros flag openssl_out err Hcall Hblank.
  destruct (blank_loops w openssl_out Hblank) as (Hdates & Hdn & Hpurpose & Hfull).
  repeat split; intros ->.
  - rewrite certificate_dates_run; cbn [fst].
    unfold dates_outcome, tool_lines; rewrite Hcall; unfold_res; now rewrite Hdates.
  - rewrite certificate_subject_run; cbn [fst].
    unfold dn_outcome, tool_lines; rewrite Hcall; unfold_res; now rewrite Hdn.
  - rewrite certificate_issuer_run; cbn [fst].
    unfold dn_outcome, tool_lines; rewrite Hcall; unfold_res; now rewrite Hdn.
  - rewrite certificate_purpose_run; cbn [fst].
    unfold purpose_outcome, tool_lines; rewrite Hcall; unfold_res; now rewrite Hpurpose.
  - rewrite certificate_full_run; cbn [fst].
    unfold full_outcome, tool_lines; rewrite Hcall; unfold_res; now rewrite Hfull.
Qed.

Lemma blank_output_gives_none_witness :
  fst (certificate_subject Sample.world "/etc/nginx/missing.crt" []) = Ok None.
Proof.
  apply (proj1 (proj2 (blank_output_gives_none Sample.world "/etc/nginx/missing.crt" []
                         "-subject" [""] ["unable to load certificate"; ""]
                         ltac:(reflexivity)
                         ltac:(repeat constructor)))).
  reflexivity.
Defined.

(** ** The key length *)

(** [int()] of a non-empty string of digits is the number that they write. *)
Lemma to_int_digits_value c s n :
  all_of digit (String c s) = true ->
  Str.digits_value 0 (String c s) = Some n ->
  Str.to_int (String c s) = Ok n.
Proof.
  intros Hall Hvalue.
  destruct (to_int_digits c s Hall) as (n' & E & _).
  rewrite E; f_equal.
  unfold Str.to_int in E.
  pose proof Hall as Hc; cbn [all_of] in Hc; apply andb_true_iff in Hc as [Hc _].
  cbn [Str.lstrip] in E.
  rewrite (digit_not_space _ Hc), (rstrip_digits _ Hall) in E.
  assert (Hplain : Str.unsigned (String c s) = Some n) by exact Hvalue.
  destruct (Ascii.eqb_spec c "-") as [->|Hminus]; [discriminate Hc|].
  destruct (Ascii.eqb_spec c "+") as [->|Hplus]; [discriminate Hc|].
  destruct c as [[] [] [] [] [] [] [] []];
    try (exfalso; apply Hminus; reflexivity);
    try (exfalso; apply Hplus; reflexivity);
    rewrite Hplain in E; congruence.
Qed.

Lemma full_regex_length_from openssl_out line results regex results' :
  regex ∈ ssl_text_regexs ->
  line ∈ openssl_out ->
  full_regex line results regex = Ok results' ->
  length_from openssl_out results ->
  length_from openssl_out results'.
Proof.
  intros Hin Hline E Hfrom v; unfold full_regex in E.
  destruct (match_ regex line) as [groupdict|] eqn:Hm.
  - injection E as <-.
    pose proof Hin as Hcase; unfold ssl_text_regexs in Hcase.
    apply elem_of_cons in Hcase as [->|Hcase];
      [|apply elem_of_cons in Hcase as [->|Hcase]];
      [| |apply list_elem_of_singleton in Hcase as ->].
    + rewrite lookup_union_r; [apply Hfrom|].
      rewrite lookup_fmap.
      destruct (groupdict !! "length") eqn:Hl; [exfalso|reflexivity].
      pose proof (match_groups _ _ _ "length" Hm) as Hg.
      rewrite Hl in Hg; specialize (Hg (ltac:(eauto))).
      cbn in Hg; apply list_elem_of_singleton in Hg; discriminate.
    + pose proof Hm as Hcapture.
      apply length_capture in Hcapture as (c & digits & -> & Hall).
      rewrite lookup_union_Some_raw, map_fmap_singleton, lookup_singleton_eq.
      intros [[= <-]|[[=] _]].
      eexists line, _, c, digits; split; [exact Hline|].
      split; [exact Hin|]; split; [exact Hm|]; split; [exact Hall|reflexivity].
    + rewrite lookup_union_r; [apply Hfrom|].
      rewrite lookup_fmap.
      destruct (groupdict !! "length") eqn:Hl; [exfalso|reflexivity].
      pose proof (match_groups _ _ _ "length" Hm) as Hg.
      rewrite Hl in Hg; specialize (Hg (ltac:(eauto))).
      cbn in Hg; apply list_elem_of_singleton in Hg; discriminate.
  - destruct (findall ssl_dns_regex line) as [|x matches]; unfold_res.
    + injection E as <-; apply Hfrom.
    + destruct (dns_names (x :: matches)); [|discriminate].
      injection E as <-; rewrite lookup_insert_ne by discriminate; apply Hfrom.
Qed.

Lemma full_lines_length_from openssl_out results :
  Res.foldM full_line openssl_out ∅ = Ok results ->
  length_from openssl_out results.
Proof.
  intros E.
  refine (foldM_preserves (length_from openssl_out) full_line openssl_out _
            ∅ results _ E);
    [|intros v Hv; rewrite lookup_empty in Hv; discriminate].
  intros b line b' Hline Hstep Hb; unfold full_line in Hstep.
  refine (foldM_preserves (length_from openssl_out) (full_regex line)
            ssl_text_regexs _ b b' Hb Hstep).
  intros d regex d' Hin Hd; exact (full_regex_length_from _ _ _ _ _ Hin Hline Hd).
Qed.

(** What [certificate_full] returned, it gathered from the lines of the
    dump. *)
Lemma full_outcome_lines w filename info :
  full_outcome w filename = Ok (Some info) ->
  exists openssl_out err,
    subp_call w (openssl_x509 filename "-text") = Ok (openssl_out, err) /\
    Res.foldM full_line openssl_out ∅ = Ok info.
Proof.
  unfold full_outcome, tool_lines; unfold_res.
  destruct (subp_call w (openssl_x509 filename "-text")) as [[openssl_out err]|];
    [|discriminate].
  destruct (Res.foldM full_line openssl_out ∅) as [results|] eqn:E; [|discriminate].
  unfold Py.or_none; case_bool_decide; [discriminate|].
  intros [= <-]; eauto.
Qed.

Lemma coerce_length_none results coerced :
  results !! "length" = None ->
  coerce_length results = Ok coerced ->
  coerced !! "length" = None.
Proof.
  unfold coerce_length; unfold_res; intros Hnone.
  rewrite Hnone; now intros [= <-].
Qed.

Lemma coerce_length_digits results coerced c digits n :
  results !! "length" = Some (VStr (String c digits)) ->
  all_of digit (String c digits) = true ->
  Str.digits_value 0 (String c digits) = Some n ->
  coerce_length results = Ok coerced ->
  coerced !! "length" = Some (VInt n).
Proof.
  unfold coerce_length; unfold_res; intros Hsome Hall Hvalue.
  rewrite Hsome; cbn [Py.int].
  rewrite (to_int_digits_value _ _ _ Hall Hvalue).
  intros [= <-]; apply lookup_insert_eq.
Qed.

(** C9: in every result of [ssl_analysis] the [length] is the integer that
    the digits captured by the Public-Key pattern write: when the full-text
    extractor gathered a run of digits under [length] (captured by a pattern
    of the catalog on a line of the dump), the record holds their decimal
    value as an integer, and when it gathered none the record has no
    [length].  The line [Public-Key: (2048 bit)] gives the digits [2048],
    which the assembly turns into the integer [2048]; so does a whole
    analysis whose dump has that line. *)
Theorem length_is_integer :
  (forall w filename t results t',
      ssl_analysis w filename t = (Ok (Some results), t') ->
      match gathered_length w filename with
      | Some digits =>
          exists n openssl_out err line regex,
            digits <> "" /\
            Str.digits_value 0 digits = Some n /\
            results !! "length" = Some (VInt n) /\
            subp_call w (openssl_x509 filename "-text") = Ok (openssl_out, err) /\
            line ∈ openssl_out /\
            regex ∈ ssl_text_regexs /\
            match_ regex line = Some {[ "length" := digits ]}
      | None => results !! "length" = None
      end) /\
  (Res.bind (full_line ∅ "Public-Key: (2048 bit)") coerce_length
   = Ok {[ "length" := VInt 2048 ]}) /\
  ("                Public-Key: (2048 bit)" ∈ Sample.text_out /\
   returned (ssl_analysis Sample.world Sample.filename []) !! "length"
   = Some (VInt 2048)).
Proof.
  split; [|split; [|split]].
  - intros w filename t results t' H.
    apply ssl_analysis_some in H as (_ & t0 & t1 & Ha).
    apply analyze_ok in Ha
      as (modified & dates & subject & issuer & purpose & ocsp_uri & info & coerced
          & _ & _ & _ & _ & _ & _ & Hfull & Hc & Hr).
    rewrite (reconcile_names_other _ _ "length" Hr) by discriminate.
    unfold gathered_length; rewrite certificate_full_run; cbn [fst]; rewrite Hfull.
    destruct info as [info|];
      [|refine (coerce_length_none
                  (extracted modified dates subject issuer purpose ocsp_uri None)
                  coerced _ Hc); reflexivity].
    destruct (full_outcome_lines _ _ _ Hfull) as (openssl_out & err & Hcall & Hlines).
    assert (Hlook : extracted modified dates subject issuer purpose ocsp_uri (Some info)
                      !! "length" = info !! "length").
    { unfold extracted; destruct (info !! "length") as [v|] eqn:Hv.
      - now apply lookup_union_Some_l.
      - now rewrite lookup_union_r. }
    destruct (info !! "length") as [v|] eqn:Hv;
      [|exact (coerce_length_none _ _ Hlook Hc)].
    destruct (full_lines_length_from _ _ Hlines v Hv)
      as (line & regex & c & digits & Hline & Hin & Hm & Hall & ->).
    destruct (digits_value_digits _ Hall 0) as (n & Hvalue & _); [lia|].
    exists n, openssl_out, err, line, regex.
    repeat split; try assumption; [discriminate|].
    exact (coerce_length_digits _ _ _ _ _ Hlook Hall Hvalue Hc).
  - by_evaluation.
  - unfold Sample.text_out.
    do 6 apply list_elem_of_further; apply list_elem_of_here.
  - by_evaluation.
Qed.

Lemma length_is_integer_witness :
  match gathered_length Sample.world Sample.filename with
  | Some digits =>
      exists n openssl_out err line regex,
        digits <> "" /\
        Str.digits_value 0 digits = Some n /\
        returned (ssl_analysis Sample.world Sample.filename []) !! "length"
        = Some (VInt n) /\
        subp_call Sample.world (openssl_x509 Sample.filename "-text")
        = Ok (openssl_out, err) /\
        line ∈ openssl_out /\
        regex ∈ ssl_text_regexs /\
        match_ regex line = Some {[ "length" := digits ]}
  | None =>
      returned (ssl_analysis Sample.world Sample.filename []) !! "length" = None
  end.
Proof.
  apply (proj1 length_is_integer Sample.world Sample.filename []
           (returned (ssl_analysis Sample.world Sample.filename []))
           (snd (ssl_analysis Sample.world Sample.filename []))).
  by_evaluation.
Defined.
